(** * prometheus-webhook-dingtalk: the notifier package

    A shallow embedding of [notifier/notification.go]: the notification
    builder ([Build], [ResolvedTmpl]), the length-bounded batch splitter
    ([Buildv2]) and the two transports ([SendNotification],
    [SendNotificationV2]), with the properties the specification states
    about them.

    Conventions.
    - Go's [int] is [Z]; slice indices, which the code keeps non-negative,
      are [nat].
    - [[]byte] is [list byte], Go's [string] is [string].
    - A Go function returning [(T, error)] returns [result T].
    - A function that writes through a pointer argument returns the final
      value of the pointee next to its result.
    - The template engine and the HTTP client are values the functions
      receive, as in the source.  Functions of the Go standard library
      ([encoding/json], [crypto/hmac], [encoding/base64], [net/url]) and
      the clock are Section variables or arguments. *)

From Stdlib Require Import ZArith Ascii String Strings.Byte DecimalString.
From stdpp Require Import gmap strings list.

Local Open Scope string_scope.
Local Open Scope list_scope.
Local Open Scope Z_scope.

(** ** Errors and results *)

Abbreviation bytes := (list byte).

(** Go's [len] of a byte slice, as an [int]. *)
Definition len (b : bytes) : Z := Z.of_nat (length b).

Inductive error : Type :=
| TemplateError (template : string) (cause : string)
    (* raised by the template engine *)
| LibraryError (cause : string)
    (* raised by encoding/json, net/url or net/http *)
| Wrap (cause : error) (message : string)
    (* errors.Wrap(cause, message) *)
| UnacceptableResponseCode (code : Z).
    (* errors.Errorf("unacceptable response code %d", code) *)

Inductive result (A : Type) : Type :=
| OK (a : A)
| Err (e : error).
Arguments OK {A} a.
Arguments Err {A} e.

Definition bind {A B} (r : result A) (k : A -> result B) : result B :=
  match r with
  | OK a => k a
  | Err e => Err e
  end.

Declare Scope result_scope.
Delimit Scope result_scope with result.
Notation "'try' x <- r ; k" := (bind r (fun x => k))
  (at level 10, x pattern, r at level 100, k at level 200) : result_scope.
Local Open Scope result_scope.

Definition is_OK {A} (r : result A) : bool :=
  match r with OK _ => true | Err _ => false end.

(** ** Data model *)

Module models.

Inductive AlertStatus : Type := firing | resolved.

(** Modelled from the spec: the type declarations of [pkg/models] are
    missing.  An alert carries labels and annotations (maps from string
    to string), two timestamps and a status. *)
Record Alert : Type := {
  Labels : gmap string string;
  Annotations : gmap string string;
  StartsAt : Z;
  EndsAt : Z;
  AlertStatus_of : AlertStatus
}.

(** Modelled from the spec: the inbound payload.  [Alerts] is the ordered
    alert sequence, the only field [Buildv2] assigns. *)
Record WebhookMessage : Type := {
  Status : AlertStatus;
  GroupLabels : gmap string string;
  CommonLabels : gmap string string;
  Alerts : list Alert
}.

(** [m.Alerts = a] *)
Definition set_Alerts (m : WebhookMessage) (a : list Alert) : WebhookMessage :=
  {| Status := Status m;
     GroupLabels := GroupLabels m;
     CommonLabels := CommonLabels m;
     Alerts := a |}.

Record DingTalkNotificationMarkdown : Type := {
  Title : string;
  Text : string
}.

Record DingTalkNotificationAt : Type := {
  AtMobiles : list string;
  IsAtAll : bool
}.

(** The fields [Build] fills in.  Pointer fields that may be [nil] are
    options. *)
Record DingTalkNotification : Type := {
  MessageType : string;
  Markdown : option DingTalkNotificationMarkdown;
  At : option DingTalkNotificationAt
}.

(** Modelled from the spec: the parsed response,
    [{ "errcode": integer, "errmsg": string }]. *)
Record DingTalkNotificationResponse : Type := {
  ErrorCode : Z;
  ErrorMessage : string
}.

End models.
Import models.

Module config.

Record TargetMention : Type := {
  All : bool;
  Mobiles : list string
}.

Record TargetMessage : Type := {
  MsgTitle : string;
  MsgText : string
}.

(** [net/url]'s URL, reduced to the one field the notifier writes; the
    other components are opaque to this package and kept together. *)
Record URL : Type := {
  Base : string;      (* scheme, user, host and path *)
  RawQuery : string;
  Fragment : string
}.

(** [u.RawQuery = q] on a copy of [u] *)
Definition set_RawQuery (u : URL) (q : string) : URL :=
  {| Base := Base u; RawQuery := q; Fragment := Fragment u |}.

(** Modelled from the spec: a delivery destination.  [target.URL] points
    to a URL of [net/url], so that [*target.URL] is a copy of its own: a
    write to the copy's [RawQuery] leaves the target as configured. *)
Record Target : Type := {
  TargetURL : URL;
  Secret : string;
  Mention : option TargetMention;
  Message : option TargetMessage
}.

Definition set_Secret (t : Target) (s : string) : Target :=
  {| TargetURL := TargetURL t; Secret := s;
     Mention := Mention t; Message := Message t |}.

End config.
Import config.

(** ** Slices *)

(** [l[lo:hi]].  Go panics unless [lo <= hi <= cap l]; every use below is
    in range ([Buildv2_loop_in_range]). *)
Definition slice {A} (l : list A) (lo hi : nat) : list A :=
  take (hi - lo) (drop lo l).

Definition MAX_MESSAGE_LENGTH : Z := 20000.

(** ** The notification builder *)

Module template.

(** [*template.Template], seen through its one method used here,
    [ExecuteTextString(text, data)]: a pure function of the template text
    and the message. *)
Record Template : Type := {
  ExecuteTextString : string -> WebhookMessage -> result string
}.

End template.
Import template.

Record DingNotificationBuilder : Type := {
  tmpl : Template;
  target : Target;
  titleTpl : string;
  textTpl : string
}.

Section Builder.

(** [json.Marshal] on a notification. *)
Variable json_Marshal : DingTalkNotification -> result bytes.

(** Message template from the following order:
    target level > config global level > builtin global level.
    [defaultMessage] is [conf.GetDefaultMessage()]. *)
Definition NewDingNotificationBuilder (tmpl : Template)
    (defaultMessage : TargetMessage) (target : Target)
  : DingNotificationBuilder :=
  match Message target with
  | Some msg =>
      {| tmpl := tmpl; target := target;
         titleTpl := MsgTitle msg; textTpl := MsgText msg |}
  | None =>
      {| tmpl := tmpl; target := target;
         titleTpl := MsgTitle defaultMessage;
         textTpl := MsgText defaultMessage |}
  end.

Definition renderTitle (r : DingNotificationBuilder) (data : WebhookMessage)
  : result string :=
  ExecuteTextString (tmpl r) (titleTpl r) data.

Definition renderText (r : DingNotificationBuilder) (data : WebhookMessage)
  : result string :=
  ExecuteTextString (tmpl r) (textTpl r) data.

(** The mention block: present exactly when [r.target.Mention != nil]. *)
Definition mention_block (r : DingNotificationBuilder)
  : option DingTalkNotificationAt :=
  match Mention (target r) with
  | Some mention =>
      Some {| IsAtAll := All mention; AtMobiles := Mobiles mention |}
  | None => None
  end.

Definition Build (r : DingNotificationBuilder) (m : WebhookMessage)
  : result DingTalkNotification :=
  try title <- renderTitle r m;
  try content <- renderText r m;
  OK {| MessageType := "markdown";
        Markdown := Some {| Title := title; Text := content |};
        At := mention_block r |}.

Definition ResolvedTmpl (r : DingNotificationBuilder) (m : WebhookMessage)
  : result (bytes * Z) :=
  try title <- renderTitle r m;
  try content <- renderText r m;
  let notification :=
    {| MessageType := "markdown";
       Markdown := Some {| Title := title; Text := content |};
       At := mention_block r |} in
  match json_Marshal notification with
  | Err err => Err (Wrap err "error encoding DingTalk request")
  | OK body => OK (body, len body)
  end.

(** *** The batch splitter *)

(** The variables of [Buildv2] that live across loop iterations, and the
    message behind the pointer [m]. *)
Record LoopState : Type := {
  msg : WebhookMessage;
  lastIndex : nat;
  lastData : bytes;
  sendDatas : list bytes
}.

(** One iteration of the [for] loop at [index].  [Some err] is the early
    [return nil, err]. *)
Definition Buildv2_body (r : DingNotificationBuilder) (alerts : list Alert)
    (index : nat) (st : LoopState) : LoopState * option error :=
  let m := set_Alerts (msg st) (slice alerts (lastIndex st) index) in
  match ResolvedTmpl r m with
  | Err err =>
      ({| msg := m; lastIndex := lastIndex st;
          lastData := lastData st; sendDatas := sendDatas st |}, Some err)
  | OK (data, l) =>
      if l <? MAX_MESSAGE_LENGTH then
        ({| msg := m; lastIndex := lastIndex st;
            lastData := data; sendDatas := sendDatas st |}, None)
      else if negb (len (lastData st) =? 0) then
        ({| msg := m; lastIndex := (index - 1)%nat;
            lastData := []; sendDatas := sendDatas st ++ [lastData st] |}, None)
      else
        ({| msg := m; lastIndex := index;
            lastData := []; sendDatas := sendDatas st ++ [data] |}, None)
  end.

(** [for index := 1; index <= len(alerts); index++], run over the indices
    still to visit. *)
Fixpoint Buildv2_loop (r : DingNotificationBuilder) (alerts : list Alert)
    (indices : list nat) (st : LoopState) : LoopState * option error :=
  match indices with
  | [] => (st, None)
  | index :: rest =>
      match Buildv2_body r alerts index st with
      | (st', Some err) => (st', Some err)
      | (st', None) => Buildv2_loop r alerts rest st'
      end
  end.

(** The variables [Buildv2] declares before the loop. *)
Definition Buildv2_init (m : WebhookMessage) : LoopState :=
  {| msg := m; lastIndex := 0%nat; lastData := []; sendDatas := [] |}.

(** [Buildv2] returns the message as it leaves it behind the pointer [m],
    and its Go result.  After the loop, [data] is again the variable
    declared by the first statement, the rendering of the whole message:
    the [data] of the loop body is a new variable of the inner scope. *)
Definition Buildv2 (r : DingNotificationBuilder) (m : WebhookMessage)
  : WebhookMessage * result (list bytes) :=
  match ResolvedTmpl r m with
  | Err err => (m, Err err)
  | OK (data, oriLen) =>
      if oriLen <? MAX_MESSAGE_LENGTH then (m, OK [data])
      else
        let alerts := Alerts m in
        match Buildv2_loop r alerts (seq 1 (length alerts)) (Buildv2_init m) with
        | (st, Some err) => (msg st, Err err)
        | (st, None) =>
            if negb (len (lastData st) =? 0)
            then (msg st, OK (sendDatas st ++ [data]))
            else (msg st, OK (sendDatas st))
        end
  end.

End Builder.

(** ** Signing and transport *)

Module http.

(** An outgoing request: the URL string it was created with, its header
    and its body. *)
Record Request : Type := {
  Method : string;
  ReqURL : string;
  Header : gmap string (list string);
  ReqBody : bytes
}.

(** [req.Header.Set(key, value)] *)
Definition Header_Set (req : Request) (key value : string) : Request :=
  {| Method := Method req; ReqURL := ReqURL req;
     Header := <[key := [value]]> (Header req);
     ReqBody := ReqBody req |}.

(** A response body is a stream: the bytes not yet read from it, and
    whether it has been closed. *)
Record Body : Type := {
  unread : bytes;
  closed : bool
}.

(** [io.Copy(ioutil.Discard, body)] *)
Definition drain (b : Body) : Body := {| unread := []; closed := closed b |}.

(** [body.Close()] *)
Definition Close (b : Body) : Body := {| unread := unread b; closed := true |}.

Record Response : Type := {
  StatusCode : Z;
  RespBody : Body
}.

(** [*http.Client], seen through its one method [Do]. *)
Definition Client : Type := Request -> result Response.

End http.
Import http.

(** [url.Values.Set(key, value)]: the key's values become the one value. *)
Definition Values_Set (v : gmap string (list string)) (key value : string)
  : gmap string (list string) :=
  <[key := [value]]> v.

(** [strconv.FormatInt(i, 10)] *)
Definition FormatInt10 (i : Z) : string := NilZero.string_of_int (Z.to_int i).

(** [int64(time.Millisecond)], in nanoseconds *)
Definition Millisecond : Z := 1000000.

Definition LF : string := String "010"%char EmptyString.

(** What a call of a transport function did and returned: the requests
    handed to [httpClient.Do], the response body as the call leaves it
    ([None] when no response was received), and the Go result. *)
Record SendOutcome : Type := {
  sent : list Request;
  body_after : option Body;
  ret : result DingTalkNotificationResponse
}.

Section Transport.

(** [json.Marshal] on a notification. *)
Variable json_Marshal : DingTalkNotification -> result bytes.

(** [json.NewDecoder(body).Decode(&robotResp)] on a stream holding the
    given bytes: the decoded response or the decoder's error, and the bytes
    the decoder left unread in the stream. *)
Variable json_Decode : bytes -> result DingTalkNotificationResponse * bytes.

(** [hmac.New(sha256.New, key)], [Write(message)], [Sum(nil)] *)
Variable hmac_sha256 : bytes -> bytes -> bytes.

(** [base64.StdEncoding.EncodeToString] *)
Variable base64_EncodeToString : bytes -> string.

(** [url.URL.Query()], [url.Values.Encode()], [url.URL.String()] *)
Variable URL_Query : URL -> gmap string (list string).
Variable Values_Encode : gmap string (list string) -> string.
Variable URL_String : URL -> string.

(** [http.NewRequest] fails on a URL string it cannot parse; [None] when
    it can. *)
Variable url_Parse_error : string -> option error.

Definition http_NewRequest (method url : string) (body : bytes)
  : result Request :=
  match url_Parse_error url with
  | Some err => Err err
  | None => OK {| Method := method; ReqURL := url; Header := ∅; ReqBody := body |}
  end.

(** The signature computed when a secret is provided. *)
Definition signature_of (secret timestamp : string) : string :=
  let stringToSign := list_byte_of_string (timestamp ++ LF ++ secret) in
  base64_EncodeToString (hmac_sha256 (list_byte_of_string secret) stringToSign).

(** The first block of [SendNotification]: the URL the request goes to.
    [now] is [time.Now().UnixNano()]. *)
Definition signed_URL (now : Z) (target : Target) : URL :=
  let targetURL := TargetURL target in
  if bool_decide (Secret target ≠ EmptyString) then
    let timestamp := FormatInt10 (Z.quot now Millisecond) in
    let signature := signature_of (Secret target) timestamp in
    let qs := URL_Query targetURL in
    let qs := Values_Set qs "timestamp" timestamp in
    let qs := Values_Set qs "sign" signature in
    set_RawQuery targetURL (Values_Encode qs)
  else targetURL.

(** From [httpClient.Do] on: the deferred drain-and-close runs on every
    path once a response has been received. *)
Definition exchange (httpClient : Client) (httpReq : Request) : SendOutcome :=
  match httpClient httpReq with
  | Err err =>
      {| sent := [httpReq]; body_after := None;
         ret := Err (Wrap err "error sending notification to DingTalk") |}
  | OK resp =>
      let deferred (b : Body) := Close (drain b) in
      if bool_decide (StatusCode resp ≠ 200) then
        {| sent := [httpReq];
           body_after := Some (deferred (RespBody resp));
           ret := Err (UnacceptableResponseCode (StatusCode resp)) |}
      else
        let (decoded, rest) := json_Decode (unread (RespBody resp)) in
        let b := {| unread := rest; closed := closed (RespBody resp) |} in
        match decoded with
        | Err err =>
            {| sent := [httpReq]; body_after := Some (deferred b);
               ret := Err (Wrap err "error decoding response from DingTalk") |}
        | OK robotResp =>
            {| sent := [httpReq]; body_after := Some (deferred b);
               ret := OK robotResp |}
        end
  end.

(** The request both transports build for a URL and a body. *)
Definition post_request (u : URL) (body : bytes) : Request :=
  {| Method := "POST"; ReqURL := URL_String u;
     Header := {[ "Content-Type" := ["application/json"] ]};
     ReqBody := body |}.

Definition no_exchange (err : error) : SendOutcome :=
  {| sent := []; body_after := None; ret := Err err |}.

Definition SendNotification (now : Z) (notification : DingTalkNotification)
    (httpClient : Client) (target : Target) : SendOutcome :=
  let targetURL := signed_URL now target in
  match json_Marshal notification with
  | Err err => no_exchange (Wrap err "error encoding DingTalk request")
  | OK body =>
      match http_NewRequest "POST" (URL_String targetURL) body with
      | Err err => no_exchange (Wrap err "error building DingTalk request")
      | OK httpReq =>
          let httpReq := Header_Set httpReq "Content-Type" "application/json" in
          exchange httpClient httpReq
      end
  end.

Definition SendNotificationV2 (body : bytes) (httpClient : Client)
    (target : Target) : SendOutcome :=
  let targetURL := TargetURL target in
  match http_NewRequest "POST" (URL_String targetURL) body with
  | Err err => no_exchange (Wrap err "error building DingTalk request")
  | OK httpReq =>
      let httpReq := Header_Set httpReq "Content-Type" "application/json" in
      exchange httpClient httpReq
  end.

End Transport.

(** ** Specification predicates for the splitter *)

(** [m'] is [m] up to its alerts: the fields [Buildv2] never assigns are
    the same. *)
Definition same_frame (m m' : WebhookMessage) : Prop :=
  Status m' = Status m ∧ GroupLabels m' = GroupLabels m
  ∧ CommonLabels m' = CommonLabels m.

Section Coverage.

Variable json_Marshal : DingTalkNotification -> result bytes.

(** [batch] is the rendering of the message [m] restricted to its alerts
    [lo], ..., [hi - 1]. *)
Definition renders (r : DingNotificationBuilder) (m : WebhookMessage)
    (lo hi : nat) (batch : bytes) : Prop :=
  ∃ l, ResolvedTmpl json_Marshal r
         (set_Alerts m (slice (Alerts m) lo hi)) = OK (batch, l).

(** [batches] render consecutive, non-empty ranges of the alerts of [m]
    that start at [lo] and end with the last alert: from [lo = 0], the
    ranges partition the alert sequence in order. *)
Fixpoint covers (r : DingNotificationBuilder) (m : WebhookMessage)
    (lo : nat) (batches : list bytes) : Prop :=
  match batches with
  | [] => lo = length (Alerts m)
  | batch :: rest =>
      ∃ hi, (lo < hi ≤ length (Alerts m))%nat
            ∧ renders r m lo hi batch ∧ covers r m hi rest
  end.

(** The candidate sub-slices the loop of [Buildv2] assigns to [m.Alerts],
    in the order it assigns them. *)
Fixpoint Buildv2_candidates (r : DingNotificationBuilder) (alerts : list Alert)
    (indices : list nat) (st : LoopState) : list (list Alert) :=
  match indices with
  | [] => []
  | index :: rest =>
      slice alerts (lastIndex st) index ::
      match Buildv2_body json_Marshal r alerts index st with
      | (_, Some _) => []
      | (st', None) => Buildv2_candidates r alerts rest st'
      end
  end.

End Coverage.

(** ** The standard library on concrete inputs

    Instances of the standard-library functions the transports are
    parametric in, after the documents the Go packages implement:
    [crypto/sha256] (FIPS 180-4), [crypto/hmac] (RFC 2104),
    [encoding/base64] (RFC 4648) and the query functions of [net/url].
    They serve to evaluate the transports on concrete targets. *)

Module GoStd.

Definition byte_to_Z (b : byte) : Z := Z.of_N (Byte.to_N b).

Definition Z_to_byte (z : Z) : byte :=
  default x00 (Byte.of_N (Z.to_N (z mod 256))).

(** *** SHA-256 on 32-bit words *)

Definition word (x : Z) : Z := x mod 2 ^ 32.

Definition rotr (n x : Z) : Z :=
  Z.lor (Z.shiftr x n) (word (Z.shiftl x (32 - n))).

Definition Ch (x y z : Z) : Z :=
  Z.lxor (Z.land x y) (Z.land (Z.lxor x (2 ^ 32 - 1)) z).

Definition Maj (x y z : Z) : Z :=
  Z.lxor (Z.lxor (Z.land x y) (Z.land x z)) (Z.land y z).

Definition Sigma0 (x : Z) : Z :=
  Z.lxor (Z.lxor (rotr 2 x) (rotr 13 x)) (rotr 22 x).

Definition Sigma1 (x : Z) : Z :=
  Z.lxor (Z.lxor (rotr 6 x) (rotr 11 x)) (rotr 25 x).

Definition sigma0 (x : Z) : Z :=
  Z.lxor (Z.lxor (rotr 7 x) (rotr 18 x)) (Z.shiftr x 3).

Definition sigma1 (x : Z) : Z :=
  Z.lxor (Z.lxor (rotr 17 x) (rotr 19 x)) (Z.shiftr x 10).

(** The first 64 primes: the round constants are the fractional parts of
    their cube roots, the initial hash value those of the square roots of
    the first eight. *)
Definition primes : list Z :=
  [2; 3; 5; 7; 11; 13; 17; 19; 23; 29; 31; 37; 41; 43; 47; 53; 59; 61; 67; 71;
   73; 79; 83; 89; 97; 101; 103; 107; 109; 113; 127; 131; 137; 139; 149; 151;
   157; 163; 167; 173; 179; 181; 191; 193; 197; 199; 211; 223; 227; 229; 233;
   239; 241; 251; 257; 263; 269; 271; 277; 281; 283; 293; 307; 311].

(** The integer cube root of [x], built bit by bit from bit [bits - 1]. *)
Fixpoint cube_root (bits : nat) (x r : Z) : Z :=
  match bits with
  | O => r
  | S b =>
      let c := r + 2 ^ Z.of_nat b in
      cube_root b x (if c * c * c <=? x then c else r)
  end.

Definition round_constants : list Z :=
  Eval vm_compute in
    map (fun p => word (cube_root 36 (p * 2 ^ 96) 0)) primes.

Definition initial_hash : list Z :=
  Eval vm_compute in
    map (fun p => word (Z.sqrt (p * 2 ^ 64))) (take 8 primes).

(** The [n] low bytes of [x], most significant first. *)
Fixpoint be_bytes (n : nat) (x : Z) : bytes :=
  match n with
  | O => []
  | S k => Z_to_byte (Z.shiftr x (8 * Z.of_nat k)) :: be_bytes k x
  end.

Definition be_word (bs : bytes) : Z :=
  fold_left (fun acc b => acc * 256 + byte_to_Z b) bs 0.

Definition pad (message : bytes) : bytes :=
  let l := Z.of_nat (length message) in
  message ++ [x80] ++ repeat x00 (Z.to_nat ((55 - l) mod 64))
  ++ be_bytes 8 (8 * l).

Fixpoint chunks (count size : nat) (bs : bytes) : list bytes :=
  match count with
  | O => []
  | S k => take size bs :: chunks k size (drop size bs)
  end.

(** The message schedule, newest word first while it grows. *)
Fixpoint extend (n : nat) (w : list Z) : list Z :=
  match n with
  | O => w
  | S k =>
      extend k
        (word (sigma1 (nth 1 w 0) + nth 6 w 0 + sigma0 (nth 14 w 0)
               + nth 15 w 0) :: w)
  end.

Definition schedule (block : bytes) : list Z :=
  rev (extend 48 (rev (map be_word (chunks 16 4 block)))).

Definition round (s : list Z) (kw : Z * Z) : list Z :=
  match s with
  | [a; b; c; d; e; f; g; h] =>
      let t1 := h + Sigma1 e + Ch e f g + fst kw + snd kw in
      let t2 := Sigma0 a + Maj a b c in
      [word (t1 + t2); a; b; c; word (d + t1); e; f; g]
  | _ => s
  end.

Definition compress (h : list Z) (block : bytes) : list Z :=
  let s := fold_left round (combine round_constants (schedule block)) h in
  map (fun p => word (fst p + snd p)) (combine h s).

Definition sha256 (message : bytes) : bytes :=
  let p := pad message in
  concat (map (be_bytes 4)
            (fold_left compress (chunks (length p / 64) 64 p) initial_hash)).

(** *** HMAC *)

Definition xor_pad (c : Z) (key : bytes) : bytes :=
  map (fun b => Z_to_byte (Z.lxor (byte_to_Z b) c)) key.

Definition hmac_sha256 (key message : bytes) : bytes :=
  let k := if 64 <? len key then sha256 key else key in
  let k := k ++ repeat x00 (64 - length k) in
  sha256 (xor_pad 92 k ++ sha256 (xor_pad 54 k ++ message)).

(** *** Base64, standard alphabet with padding *)

Definition base64_digit (n : Z) : ascii :=
  nth (Z.to_nat n)
    (list_ascii_of_string
       "ABCDEFGHIJKLMNOPQRSTUVWXYZabcdefghijklmnopqrstuvwxyz0123456789+/")
    "="%char.

Fixpoint base64_chars (bs : list Z) : list ascii :=
  match bs with
  | a :: b :: c :: rest =>
      let n := a * 65536 + b * 256 + c in
      base64_digit (n / 262144) :: base64_digit (n / 4096 mod 64)
      :: base64_digit (n / 64 mod 64) :: base64_digit (n mod 64)
      :: base64_chars rest
  | [a; b] =>
      let n := a * 65536 + b * 256 in
      [base64_digit (n / 262144); base64_digit (n / 4096 mod 64);
       base64_digit (n / 64 mod 64); "="%char]
  | [a] => [base64_digit (a / 4); base64_digit (a mod 4 * 16);
            "="%char; "="%char]
  | [] => []
  end.

Definition base64_EncodeToString (bs : bytes) : string :=
  string_of_list_ascii (base64_chars (map byte_to_Z bs)).

(** *** Queries of [net/url] *)

Definition is_unreserved (c : ascii) : bool :=
  let n := Z.of_nat (nat_of_ascii c) in
  ((48 <=? n) && (n <=? 57)) || ((65 <=? n) && (n <=? 90))
  || ((97 <=? n) && (n <=? 122))
  || bool_decide (c ∈ ["-"; "_"; "."; "~"]%char).

Definition hex_digit (n : Z) : ascii :=
  nth (Z.to_nat n) (list_ascii_of_string "0123456789ABCDEF") "0"%char.

(** [url.QueryEscape] *)
Definition QueryEscape (s : string) : string :=
  string_of_list_ascii
    (flat_map
       (fun c =>
          if is_unreserved c then [c]
          else if bool_decide (c = " "%char) then ["+"%char]
          else let n := Z.of_nat (nat_of_ascii c) in
               ["%"%char; hex_digit (n / 16); hex_digit (n mod 16)])
       (list_ascii_of_string s)).

Definition hex_value (c : ascii) : option Z :=
  let n := Z.of_nat (nat_of_ascii c) in
  if (48 <=? n) && (n <=? 57) then Some (n - 48)
  else if (65 <=? n) && (n <=? 70) then Some (n - 55)
  else if (97 <=? n) && (n <=? 102) then Some (n - 87)
  else None.

(** [url.QueryUnescape]; [None] is its error. *)
Fixpoint unescape (s : list ascii) : option (list ascii) :=
  match s with
  | [] => Some []
  | "%"%char :: rest =>
      match rest with
      | h :: l :: rest' =>
          match hex_value h, hex_value l, unescape rest' with
          | Some a, Some b, Some r =>
              Some (ascii_of_nat (Z.to_nat (a * 16 + b)) :: r)
          | _, _, _ => None
          end
      | _ => None
      end
  | c :: rest =>
      match unescape rest with
      | Some r => Some ((if bool_decide (c = "+"%char) then " "%char else c) :: r)
      | None => None
      end
  end.

(** [strings.Cut(s, sep)]: what comes before the first [sep] and what comes
    after it; the whole of [s] and nothing when [sep] does not occur. *)
Fixpoint cut (sep : ascii) (s : list ascii) : list ascii * list ascii :=
  match s with
  | [] => ([], [])
  | c :: rest =>
      if bool_decide (c = sep) then ([], rest)
      else let (before, after) := cut sep rest in (c :: before, after)
  end.

Fixpoint split (sep : ascii) (s : list ascii) (current : list ascii)
  : list (list ascii) :=
  match s with
  | [] => [rev current]
  | c :: rest =>
      if bool_decide (c = sep) then rev current :: split sep rest []
      else split sep rest (c :: current)
  end.

(** One step of [url.ParseQuery]: pairs that are empty, hold a semicolon
    or do not unescape are skipped. *)
Definition add_pair (m : gmap string (list string)) (pair : list ascii)
  : gmap string (list string) :=
  if bool_decide (";"%char ∈ pair) || bool_decide (pair = []) then m
  else
    let (key, value) := cut "="%char pair in
    match unescape key, unescape value with
    | Some k, Some v =>
        let k := string_of_list_ascii k in
        <[k := default [] (m !! k) ++ [string_of_list_ascii v]]> m
    | _, _ => m
    end.

(** [u.Query()]: [url.ParseQuery(u.RawQuery)], its error dropped. *)
Definition URL_Query (u : URL) : gmap string (list string) :=
  fold_left add_pair (split "&"%char (list_ascii_of_string (RawQuery u)) []) ∅.

Fixpoint insert_sorted (k : string) (keys : list string) : list string :=
  match keys with
  | [] => [k]
  | k' :: rest =>
      if String.leb k k' then k :: keys else k' :: insert_sorted k rest
  end.

(** [v.Encode()]: the pairs by sorted key, escaped. *)
Definition Values_Encode (v : gmap string (list string)) : string :=
  String.concat "&"
    (flat_map
       (fun k =>
          map (fun value => (QueryEscape k ++ "=" ++ QueryEscape value)%string)
              (default [] (v !! k)))
       (foldr insert_sorted [] (map fst (map_to_list v)))).

(** [u.String()] for a URL given by base, query and fragment. *)
Definition URL_String (u : URL) : string :=
  (Base u
   ++ (if bool_decide (RawQuery u = EmptyString) then EmptyString
       else "?" ++ RawQuery u)
   ++ (if bool_decide (Fragment u = EmptyString) then EmptyString
       else "#" ++ Fragment u))%string.

(** [url.Parse] refuses a string that holds an ASCII control character;
    its other errors are not modelled. *)
Definition url_Parse_error (url : string) : option error :=
  if forallb
       (fun c => let n := Z.of_nat (nat_of_ascii c) in
                 (32 <=? n) && negb (n =? 127))
       (list_ascii_of_string url)
  then None
  else Some (LibraryError "net/url: invalid control character in URL").

End GoStd.

(** ** Concrete instances

    A template engine, a JSON encoder and messages on which the functions
    above evaluate.  The engine knows two template texts; the encoder is
    [json.Marshal] on strings that need no escaping. *)

Module Fixture.

Definition quote : string := String (ascii_of_nat 34) EmptyString.

(** The text template: the descriptions of the alerts, one after the
    other. *)
Definition descriptions : string :=
  "{{ range .Alerts }}{{ .Annotations.description }}{{ end }}".

Definition engine : Template :=
  {| ExecuteTextString text m :=
       if bool_decide (text = "alerts") then OK "alerts"
       else if bool_decide (text = descriptions) then
         OK (String.concat EmptyString
               (map (fun a => default EmptyString (Annotations a !! "description"))
                    (Alerts m)))
       else Err (TemplateError text "template not defined") |}.

Definition json_string (s : string) : string := quote ++ s ++ quote.

Definition json_bool (b : bool) : string := if b then "true" else "false".

Definition json_At (a : DingTalkNotificationAt) : string :=
  "," ++ json_string "at" ++ ":{" ++
  json_string "isAtAll" ++ ":" ++ json_bool (IsAtAll a) ++ "," ++
  json_string "atMobiles" ++ ":[" ++
  String.concat "," (map json_string (AtMobiles a)) ++ "]}".

Definition json_Markdown (md : DingTalkNotificationMarkdown) : string :=
  "," ++ json_string "markdown" ++ ":{" ++
  json_string "title" ++ ":" ++ json_string (Title md) ++ "," ++
  json_string "text" ++ ":" ++ json_string (Text md) ++ "}".

Definition marshal (n : DingTalkNotification) : result bytes :=
  OK (list_byte_of_string
        ("{" ++ json_string "msgtype" ++ ":" ++ json_string (MessageType n) ++
         from_option json_Markdown EmptyString (Markdown n) ++
         from_option json_At EmptyString (At n) ++ "}")).

(** A target with no secret, no mention and no message override. *)
Definition plain_target : Target :=
  {| TargetURL := {| Base := "https://oapi.dingtalk.com/robot/send";
                     RawQuery := "access_token=t";
                     Fragment := EmptyString |};
     Secret := EmptyString; Mention := None; Message := None |}.

Definition builder : DingNotificationBuilder :=
  NewDingNotificationBuilder engine
    {| MsgTitle := "alerts"; MsgText := descriptions |} plain_target.

(** A firing alert whose description is [n] letters long. *)
Definition alert (n : Z) : Alert :=
  {| Labels := ∅;
     Annotations :=
       {[ "description" := string_of_list_ascii (repeat "a"%char (Z.to_nat n)) ]};
     StartsAt := 0; EndsAt := 0; AlertStatus_of := firing |}.

Definition message (sizes : list Z) : WebhookMessage :=
  {| Status := firing; GroupLabels := ∅; CommonLabels := ∅;
     Alerts := map alert sizes |}.

(** The body [ResolvedTmpl] produces for [message sizes]. *)
Definition rendering (sizes : list Z) : bytes :=
  match ResolvedTmpl marshal builder (message sizes) with
  | OK (body, _) => body
  | Err _ => []
  end.

(** The length [ResolvedTmpl] reports for a message, when it renders. *)
Definition rendered_len (m : WebhookMessage) : option Z :=
  match ResolvedTmpl marshal builder m with
  | OK (_, l) => Some l
  | Err _ => None
  end.

(** *** Targets, replies and clients *)

(** [plain_target] with the secret "abc". *)
Definition signed_target : Target := set_Secret plain_target "abc".

Definition notification : DingTalkNotification :=
  {| MessageType := "markdown";
     Markdown := Some {| Title := "alerts"; Text := "aaa" |};
     At := None |}.

(** The reply of a successful delivery. *)
Definition reply_ok : string :=
  "{" ++ json_string "errcode" ++ ":0," ++ json_string "errmsg" ++ ":"
  ++ json_string "ok" ++ "}".

(** A decoder that knows [reply_ok] and takes every other body for
    malformed; it reads the stream to its end. *)
Definition decode (body : bytes)
  : result DingTalkNotificationResponse * bytes :=
  if bool_decide (string_of_list_byte body = reply_ok)
  then (OK {| ErrorCode := 0; ErrorMessage := "ok" |}, [])
  else (Err (LibraryError "invalid character"), []).

(** A client that answers every request with the given status and body. *)
Definition answering (code : Z) (body : string) : Client :=
  fun _ =>
    OK {| StatusCode := code;
          RespBody := {| unread := list_byte_of_string body;
                         closed := false |} |}.

(** The transports over the instances of [GoStd]. *)
Definition send : Z -> DingTalkNotification -> Client -> Target -> SendOutcome :=
  SendNotification marshal decode GoStd.hmac_sha256
    GoStd.base64_EncodeToString GoStd.URL_Query GoStd.Values_Encode
    GoStd.URL_String GoStd.url_Parse_error.

Definition send_v2 : bytes -> Client -> Target -> SendOutcome :=
  SendNotificationV2 decode GoStd.URL_String GoStd.url_Parse_error.

End Fixture.

(** ** A template that reads the second alert

    A text template that renders on a message of two alerts or more and
    fails on a shorter one, as [index] does in [text/template]. *)

Module IndexedFixture.

Import Fixture.

Definition second_status : string :=
  "{{ range .Alerts }}{{ .Annotations.description }}{{ end }}{{ (index .Alerts 1).Status }}".

Definition status_text (s : AlertStatus) : string :=
  match s with firing => "firing" | resolved => "resolved" end.

Definition engine : Template :=
  {| ExecuteTextString text m :=
       if bool_decide (text = "alerts") then OK "alerts"
       else if bool_decide (text = second_status) then
         match Alerts m !! 1%nat with
         | Some a =>
             OK (String.concat EmptyString
                   (map (fun a => default EmptyString
                                    (Annotations a !! "description"))
                        (Alerts m))
                 ++ status_text (AlertStatus_of a))%string
         | None =>
             Err (TemplateError text
                    "error calling index: index out of range: 1")
         end
       else Err (TemplateError text "template not defined") |}.

Definition builder : DingNotificationBuilder :=
  NewDingNotificationBuilder engine
    {| MsgTitle := "alerts"; MsgText := second_status |} plain_target.

(** The body [ResolvedTmpl] produces for [message sizes] with this
    builder. *)
Definition rendering (sizes : list Z) : bytes :=
  match ResolvedTmpl marshal builder (message sizes) with
  | OK (body, _) => body
  | Err _ => []
  end.

(** The target of [send_resigned_example]: its query already holds a
    timestamp and a signature. *)
Definition resigned_target : Target :=
  {| TargetURL :=
       {| Base := "https://oapi.dingtalk.com/robot/send";
          RawQuery := "sign=old&timestamp=5&access_token=t";
          Fragment := EmptyString |};
     Secret := "abc"; Mention := None; Message := None |}.

End IndexedFixture.

(** ** The cuts of the splitter *)

Section Cuts.

Variable json_Marshal : DingTalkNotification -> result bytes.

(** [batches] render consecutive, non-empty ranges of the alerts of [m]
    from index [lo] to index [hi], each cut where the loop of [Buildv2]
    cuts: a batch below [MAX_MESSAGE_LENGTH] is followed by an alert that,
    added to its range, renders to [MAX_MESSAGE_LENGTH] bytes or more. *)
Fixpoint greedy_cuts (r : DingNotificationBuilder) (m : WebhookMessage)
    (lo hi : nat) (batches : list bytes) : Prop :=
  match batches with
  | [] => lo = hi
  | batch :: rest =>
      ∃ mid, (lo < mid ≤ hi)%nat
             ∧ renders json_Marshal r m lo mid batch
             ∧ (len batch < MAX_MESSAGE_LENGTH →
                ∃ next l,
                  ResolvedTmpl json_Marshal r
                    (set_Alerts m (slice (Alerts m) lo (S mid)))
                  = OK (next, l)
                  ∧ MAX_MESSAGE_LENGTH ≤ l)
             ∧ greedy_cuts r m mid hi rest
  end.

(** What the loop of [Buildv2] keeps true of its variables once it has
    visited the indices up to [index]: the message differs from [m] in its
    alerts only, the batches emitted so far cut the alerts before
    [lastIndex], and a remembered [lastData] renders the alerts from
    [lastIndex] to [index], which are the alerts of the message, below the
    limit; and when [lastIndex] has caught up with [index], the batch
    emitted last is at the limit or over. *)
Definition loop_invariant (r : DingNotificationBuilder) (m : WebhookMessage)
    (index : nat) (st : LoopState) : Prop :=
  (∀ a, set_Alerts (msg st) a = set_Alerts m a)
  ∧ (lastIndex st ≤ index)%nat
  ∧ greedy_cuts r m 0 (lastIndex st) (sendDatas st)
  ∧ (lastData st ≠ [] →
     (lastIndex st < index)%nat
     ∧ renders json_Marshal r m (lastIndex st) index (lastData st)
     ∧ len (lastData st) < MAX_MESSAGE_LENGTH
     ∧ Alerts (msg st) = slice (Alerts m) (lastIndex st) index)
  ∧ (lastIndex st = index →
     index = 0%nat
     ∨ ∃ init last,
         sendDatas st = init ++ [last] ∧ MAX_MESSAGE_LENGTH ≤ len last).

End Cuts.

(** The messages [errors.Wrap] attaches in the transports, by stage. *)
Definition transport_stages : list string :=
  [ "error encoding DingTalk request";
    "error building DingTalk request";
    "error sending notification to DingTalk";
    "error decoding response from DingTalk" ].

(** A call made one attempt at most: it sent one request or none, left
    no response body unread or open, returned a response only with a body
    received, and returned no error outside the status-code error and the
    wrapped causes of [transport_stages]. *)
Definition single_attempt (out : SendOutcome) : Prop :=
  (length (sent out) ≤ 1)%nat
  ∧ (sent out = [] → body_after out = None)
  ∧ (body_after out = None
     ∨ body_after out = Some {| unread := []; closed := true |})
  ∧ (is_OK (ret out) = true →
     body_after out = Some {| unread := []; closed := true |})
  ∧ ∀ err,
      ret out = Err err →
      (∃ code, err = UnacceptableResponseCode code ∧ code ≠ 200)
      ∨ ∃ cause stage, err = Wrap cause stage ∧ stage ∈ transport_stages.

(** * Properties *)

(** Closed equations between values of the model are settled by
    evaluating both sides. *)
Ltac evaluate :=
  lazymatch goal with
  | |- ?lhs = ?rhs => vm_cast_no_check (@eq_refl _ rhs)
  end.

(** ** The notification builder and the splitter, for every template
    engine and every encoder *)

Section BuilderProperties.

Variable json_Marshal : DingTalkNotification -> result bytes.

Local Abbreviation ResolvedTmpl := (ResolvedTmpl json_Marshal).
Local Abbreviation Buildv2_body := (Buildv2_body json_Marshal).
Local Abbreviation Buildv2_loop := (Buildv2_loop json_Marshal).
Local Abbreviation Buildv2 := (Buildv2 json_Marshal).
Local Abbreviation Buildv2_candidates := (Buildv2_candidates json_Marshal).

Lemma set_Alerts_same (m : WebhookMessage) : set_Alerts m (Alerts m) = m.
Proof. by destruct m. Qed.

Lemma slice_all {A} (l : list A) : slice l 0 (length l) = l.
Proof. unfold slice. rewrite Nat.sub_0_r, drop_0. apply firstn_all. Qed.

Lemma slice_length {A} (l : list A) (lo hi : nat) :
  (lo ≤ hi ≤ length l)%nat → length (slice l lo hi) = (hi - lo)%nat.
Proof. intros H. unfold slice. rewrite length_take, length_drop. lia. Qed.

Lemma len_nonempty (b : bytes) : b ≠ [] → negb (len b =? 0) = true.
Proof.
  destruct b as [|x b]; [done|]. intros _. unfold len. cbn [length].
  destruct (Z.eqb_spec (Z.of_nat (S (length b))) 0); [lia|reflexivity].
Qed.

(** [ResolvedTmpl] is [Build] followed by [json.Marshal]. *)
Lemma ResolvedTmpl_Build (r : DingNotificationBuilder) (m : WebhookMessage)
    (n : DingTalkNotification) (data : bytes) :
  Build r m = OK n → json_Marshal n = OK data →
  ResolvedTmpl r m = OK (data, len data).
Proof.
  unfold Build, ResolvedTmpl, bind.
  destruct (renderTitle r m) as [title|]; [|discriminate].
  destruct (renderText r m) as [content|]; [|discriminate].
  intros [= <-] ->. reflexivity.
Qed.

Lemma ResolvedTmpl_inv (r : DingNotificationBuilder) (m : WebhookMessage)
    (data : bytes) (l : Z) :
  ResolvedTmpl r m = OK (data, l) →
  l = len data ∧ ∃ n, Build r m = OK n ∧ json_Marshal n = OK data.
Proof.
  unfold Build, ResolvedTmpl, bind.
  destruct (renderTitle r m) as [title|]; [|discriminate].
  destruct (renderText r m) as [content|]; [|discriminate].
  destruct (json_Marshal _) as [body|] eqn:Hbody; [|discriminate].
  intros [= <- <-]. split; [reflexivity|]. eauto.
Qed.

(** C8: when both templates render, [Build] returns a notification of
    type "markdown" carrying the rendered title and text, with an [At]
    block exactly when the target has a mention, filled from the mention's
    [All] flag and mobiles; when the title or the text fails to render,
    [Build] returns that error and no notification. *)
Theorem Build_notification (r : DingNotificationBuilder) (m : WebhookMessage) :
  (∀ title content,
     renderTitle r m = OK title → renderText r m = OK content →
     ∃ n, Build r m = OK n
          ∧ MessageType n = "markdown"
          ∧ Markdown n = Some {| Title := title; Text := content |}
          ∧ (is_Some (At n) ↔ is_Some (Mention (target r)))
          ∧ (∀ mention, Mention (target r) = Some mention →
               At n = Some {| IsAtAll := All mention;
                              AtMobiles := Mobiles mention |}))
  ∧ (∀ err, renderTitle r m = Err err → Build r m = Err err)
  ∧ (∀ title err,
       renderTitle r m = OK title → renderText r m = Err err →
       Build r m = Err err).
Proof.
  unfold Build, bind. repeat split.
  - intros title content -> ->. eexists. split; [reflexivity|]. cbn.
    unfold mention_block.
    destruct (Mention (target r)) as [mention|]; repeat split;
      try (intros [? [=]]); try (intros ? [=]; by subst); eauto.
  - by intros err ->.
  - by intros title err -> ->.
Qed.

(** C3: when the serialized [Build] output of the whole message is shorter
    than [MAX_MESSAGE_LENGTH] = 20000, [Buildv2] returns exactly that one
    body, and leaves the message as it was. *)
Theorem Buildv2_no_split (r : DingNotificationBuilder) (m : WebhookMessage)
    (n : DingTalkNotification) (data : bytes) :
  Build r m = OK n → json_Marshal n = OK data → len data < 20000 →
  Buildv2 r m = (m, OK [data]) ∧ MAX_MESSAGE_LENGTH = 20000.
Proof.
  intros Hbuild Hdata Hlen. split; [|reflexivity].
  unfold Buildv2.
  rewrite (ResolvedTmpl_Build _ _ _ _ Hbuild Hdata).
  unfold MAX_MESSAGE_LENGTH.
  destruct (Z.ltb_spec (len data) 20000) as [_|?]; [reflexivity|lia].
Qed.

(** *** The loop of [Buildv2] *)

Ltac body_cases :=
  unfold Buildv2_body;
  destruct (ResolvedTmpl _ _) as [[? ?]|];
  [destruct (_ <? MAX_MESSAGE_LENGTH); [|destruct (negb _)]|];
  cbn [fst snd msg lastIndex lastData sendDatas].

(** Every iteration assigns the candidate [alerts[lastIndex:index]] to
    [m.Alerts], whatever happens next. *)
Lemma Buildv2_body_msg (r : DingNotificationBuilder) (alerts : list Alert)
    (index : nat) (st : LoopState) :
  msg (fst (Buildv2_body r alerts index st))
  = set_Alerts (msg st) (slice alerts (lastIndex st) index).
Proof. body_cases; reflexivity. Qed.

(** [lastIndex] stays below the next index. *)
Lemma Buildv2_body_lastIndex (r : DingNotificationBuilder)
    (alerts : list Alert) (index : nat) (st : LoopState) :
  (lastIndex st < index)%nat →
  (lastIndex (fst (Buildv2_body r alerts index st)) < S index)%nat.
Proof. intros H. body_cases; lia. Qed.

Lemma Buildv2_loop_nil (r : DingNotificationBuilder) (alerts : list Alert)
    (st : LoopState) :
  Buildv2_loop r alerts [] st = (st, None).
Proof. reflexivity. Qed.

Lemma Buildv2_loop_cons (r : DingNotificationBuilder) (alerts : list Alert)
    (index : nat) (rest : list nat) (st : LoopState) :
  Buildv2_loop r alerts (index :: rest) st
  = match snd (Buildv2_body r alerts index st) with
    | Some err => (fst (Buildv2_body r alerts index st), Some err)
    | None => Buildv2_loop r alerts rest (fst (Buildv2_body r alerts index st))
    end.
Proof.
  change (Buildv2_loop r alerts (index :: rest) st)
    with (match Buildv2_body r alerts index st with
          | (st', Some err) => (st', Some err)
          | (st', None) => Buildv2_loop r alerts rest st'
          end).
  by destruct (Buildv2_body r alerts index st) as [st' [err|]].
Qed.

Lemma Buildv2_candidates_cons (r : DingNotificationBuilder)
    (alerts : list Alert) (index : nat) (rest : list nat) (st : LoopState) :
  Buildv2_candidates r alerts (index :: rest) st
  = slice alerts (lastIndex st) index ::
    match snd (Buildv2_body r alerts index st) with
    | Some _ => []
    | None =>
        Buildv2_candidates r alerts rest (fst (Buildv2_body r alerts index st))
    end.
Proof.
  change (Buildv2_candidates r alerts (index :: rest) st)
    with (slice alerts (lastIndex st) index ::
          match Buildv2_body r alerts index st with
          | (_, Some _) => []
          | (st', None) => Buildv2_candidates r alerts rest st'
          end).
  by destruct (Buildv2_body r alerts index st) as [st' [err|]].
Qed.

(** The loop changes the message only in its alerts, which it leaves equal
    to the last candidate it assigned. *)
Lemma Buildv2_loop_msg (r : DingNotificationBuilder) (alerts : list Alert)
    (indices : list nat) :
  ∀ st,
    let st' := fst (Buildv2_loop r alerts indices st) in
    same_frame (msg st) (msg st')
    ∧ Alerts (msg st')
      = default (Alerts (msg st)) (last (Buildv2_candidates r alerts indices st)).
Proof.
  induction indices as [|index rest IH]; intros st; [by repeat split|].
  cbn zeta. rewrite Buildv2_loop_cons, Buildv2_candidates_cons, last_cons.
  pose proof (Buildv2_body_msg r alerts index st) as Hmsg.
  destruct (snd (Buildv2_body r alerts index st)) as [err|].
  - cbn [fst last default]. rewrite Hmsg. by repeat split.
  - specialize (IH (fst (Buildv2_body r alerts index st))). cbn zeta in IH.
    destruct IH as [(Hs & Hg & Hc) Ha]. rewrite Hmsg in Hs, Hg, Hc, Ha.
    split; [by repeat split|]. rewrite Ha.
    by destruct (last (Buildv2_candidates _ _ _ _)).
Qed.

(** Every candidate is a non-empty sub-slice within bounds: the slice
    expressions of the loop never panic. *)
Lemma Buildv2_loop_in_range (r : DingNotificationBuilder) (alerts : list Alert)
    (count : nat) :
  ∀ first st,
    (lastIndex st < first)%nat → (first + count = S (length alerts))%nat →
    Forall (λ c, ∃ lo hi, (lo < hi ≤ length alerts)%nat
                          ∧ c = slice alerts lo hi)
      (Buildv2_candidates r alerts (seq first count) st).
Proof.
  induction count as [|count IH]; intros first st Hlt Hlen; [constructor|].
  cbn [seq]. rewrite Buildv2_candidates_cons. constructor.
  - exists (lastIndex st), first. split; [lia|reflexivity].
  - destruct (snd (Buildv2_body r alerts first st)); [constructor|].
    apply IH; [by apply Buildv2_body_lastIndex | lia].
Qed.

(** When the loop runs to its end, the last candidate ends at the last
    index visited. *)
Lemma Buildv2_loop_last_candidate (r : DingNotificationBuilder)
    (alerts : list Alert) (count : nat) :
  ∀ first st,
    (lastIndex st < first)%nat →
    snd (Buildv2_loop r alerts (seq first (S count)) st) = None →
    ∃ lo, (lo < first + count)%nat
          ∧ Alerts (msg (fst (Buildv2_loop r alerts (seq first (S count)) st)))
            = slice alerts lo (first + count).
Proof.
  induction count as [|count IH]; intros first st Hlt;
    rewrite <- cons_seq, Buildv2_loop_cons;
    pose proof (Buildv2_body_lastIndex r alerts first st Hlt) as Hlt';
    pose proof (Buildv2_body_msg r alerts first st) as Hmsg;
    destruct (snd (Buildv2_body r alerts first st)); try discriminate.
  - intros _. rewrite Buildv2_loop_nil. cbn [fst]. rewrite Hmsg.
    exists (lastIndex st). split; [lia|]. cbn. f_equal. lia.
  - intros Hnone. destruct (IH (S first) _ Hlt' Hnone) as (lo & Hlo & Heq).
    exists lo. split; [lia|]. rewrite Heq. f_equal. lia.
Qed.

(** *** [Buildv2] on the splitting path *)

(** What [Buildv2] computes once the whole message renders to
    [MAX_MESSAGE_LENGTH] bytes or more. *)
Lemma Buildv2_split (r : DingNotificationBuilder) (m : WebhookMessage)
    (data : bytes) (oriLen : Z) :
  ResolvedTmpl r m = OK (data, oriLen) → MAX_MESSAGE_LENGTH ≤ oriLen →
  Buildv2 r m
  = let run := Buildv2_loop r (Alerts m) (seq 1 (length (Alerts m)))
                 (Buildv2_init m) in
    match snd run with
    | Some err => (msg (fst run), Err err)
    | None =>
        if negb (len (lastData (fst run)) =? 0)
        then (msg (fst run), OK (sendDatas (fst run) ++ [data]))
        else (msg (fst run), OK (sendDatas (fst run)))
    end.
Proof.
  intros Hfull Hlen. unfold Buildv2. rewrite Hfull.
  destruct (Z.ltb_spec oriLen MAX_MESSAGE_LENGTH) as [?|_]; [lia|].
  cbn zeta. by destruct (Buildv2_loop _ _ _ _) as [st [err|]].
Qed.

(** The flush after the loop appends the rendering of the whole message,
    the [data] of the function's first statement, whenever [lastData] is
    not empty. *)
Lemma Buildv2_flush (r : DingNotificationBuilder) (m : WebhookMessage)
    (data : bytes) (oriLen : Z) (st : LoopState) :
  ResolvedTmpl r m = OK (data, oriLen) → MAX_MESSAGE_LENGTH ≤ oriLen →
  Buildv2_loop r (Alerts m) (seq 1 (length (Alerts m))) (Buildv2_init m)
  = (st, None) →
  lastData st ≠ [] →
  snd (Buildv2 r m) = OK (sendDatas st ++ [data]).
Proof.
  intros Hfull Hlen Hloop Hlast.
  rewrite (Buildv2_split _ _ _ _ Hfull Hlen), Hloop. cbn.
  by rewrite (len_nonempty _ Hlast).
Qed.

(** A message with a single alert that renders to [MAX_MESSAGE_LENGTH]
    bytes or more comes back as one batch, the oversized rendering. *)
Lemma Buildv2_single_oversized (r : DingNotificationBuilder)
    (m : WebhookMessage) (a : Alert) (data : bytes) (oriLen : Z) :
  Alerts m = [a] →
  ResolvedTmpl r m = OK (data, oriLen) → MAX_MESSAGE_LENGTH ≤ oriLen →
  Buildv2 r m = (m, OK [data]).
Proof.
  intros Ha Hfull Hlen. rewrite (Buildv2_split _ _ _ _ Hfull Hlen), Ha.
  cbn [length seq]. rewrite Buildv2_loop_cons, !Buildv2_loop_nil.
  unfold Buildv2_body. cbn [Buildv2_init msg lastIndex lastData sendDatas].
  replace (slice [a] 0 1) with (Alerts m) by (by rewrite Ha).
  rewrite set_Alerts_same, Hfull.
  destruct (Z.ltb_spec oriLen MAX_MESSAGE_LENGTH) as [?|_]; [lia|].
  reflexivity.
Qed.

End BuilderProperties.

(** ** The splitter on concrete messages *)

Section Scenarios.

Import Fixture.

Local Abbreviation ResolvedTmpl := (ResolvedTmpl marshal builder).
Local Abbreviation Buildv2 := (Buildv2 marshal builder).
Local Abbreviation Buildv2_loop := (Buildv2_loop marshal builder).
Local Abbreviation renders := (renders marshal builder).
Local Abbreviation covers := (covers marshal builder).

Lemma rendered_len_inv (m : WebhookMessage) (data : bytes) (l : Z) :
  ResolvedTmpl m = OK (data, l) → rendered_len m = Some (len data).
Proof.
  intros H. unfold rendered_len. rewrite H.
  by destruct (ResolvedTmpl_inv _ _ _ _ _ H) as [-> _].
Qed.

(** C1: on three alerts whose descriptions are 7000 bytes each (21062
    bytes rendered together, 14062 for two of them), [Buildv2] returns a
    single batch, the rendering of the first two alerts: the third alert
    is in no batch, and the batches do not cover the alert sequence. *)
Theorem Buildv2_drops_last_alert :
  let m := message [7000; 7000; 7000] in
  Alerts m ≠ []
  ∧ Buildv2 m = (m, OK [rendering [7000; 7000]])
  ∧ renders m 0 2 (rendering [7000; 7000])
  ∧ ¬ covers m 0 [rendering [7000; 7000]].
Proof.
  cbn zeta. split; [discriminate|]. split; [evaluate|].
  split; [exists 14062; evaluate|].
  intros (hi & _ & [l Hren] & Hhi).
  change (hi = 3%nat) in Hhi. subst hi. apply rendered_len_inv in Hren.
  assert (Hfull : rendered_len
            (set_Alerts (message [7000; 7000; 7000])
               (slice (Alerts (message [7000; 7000; 7000])) 0 3))
          = Some 21062) by evaluate.
  assert (Hbatch : len (rendering [7000; 7000]) = 14062) by evaluate.
  rewrite Hfull, Hbatch in Hren. discriminate Hren.
Qed.

(** In a message of equal alerts, a range of one alert renders as the
    message of that alert alone, or as the message without alerts. *)
Lemma slice_one_of_three (a : Alert) (lo : nat) :
  slice [a; a; a] lo (S lo) = [a] ∨ slice [a; a; a] lo (S lo) = [].
Proof.
  unfold slice. replace (S lo - lo)%nat with 1%nat by lia.
  destruct lo as [|[|[|lo]]]; cbn; rewrite ?drop_nil; auto.
Qed.

(** C2: on an alert of 20000 bytes followed by one of 10 bytes, the loop
    ends with [lastData] holding the rendering of the second alert alone
    (72 bytes), and the batch [Buildv2] appends last is another body: the
    rendering of the whole message (20072 bytes). *)
Theorem Buildv2_flushes_whole_message :
  let m := message [20000; 10] in
  let st := fst (Buildv2_loop (Alerts m) (seq 1 (length (Alerts m)))
                   (Buildv2_init m)) in
  snd (Buildv2_loop (Alerts m) (seq 1 (length (Alerts m))) (Buildv2_init m))
  = None
  ∧ lastData st = rendering [10]
  ∧ lastData st ≠ []
  ∧ sendDatas st = [rendering [20000]]
  ∧ snd (Buildv2 m) = OK [rendering [20000]; rendering [20000; 10]]
  ∧ rendering [20000; 10] ≠ lastData st.
Proof.
  cbn zeta.
  assert (Hlast : lastData (fst (Buildv2_loop (Alerts (message [20000; 10]))
                     (seq 1 (length (Alerts (message [20000; 10]))))
                     (Buildv2_init (message [20000; 10]))))
                  = rendering [10]) by evaluate.
  assert (Hten : len (rendering [10]) = 72) by evaluate.
  assert (Hall : len (rendering [20000; 10]) = 20072) by evaluate.
  split; [evaluate|]. split; [exact Hlast|]. rewrite Hlast.
  split; [intros H; by rewrite H in Hten|].
  split; [evaluate|]. split; [evaluate|].
  intros H. rewrite H, Hten in Hall. discriminate Hall.
Qed.

(** C4: on three alerts of 10000 bytes each, the second batch [Buildv2]
    emits is 20062 bytes long, at least [MAX_MESSAGE_LENGTH], and renders
    the two alerts at indices 1 and 2; it is the rendering of no single
    alert. *)
Theorem Buildv2_oversized_batch_of_two :
  let m := message [10000; 10000; 10000] in
  let batch := rendering [10000; 10000] in
  snd (Buildv2 m) = OK [rendering [10000]; batch]
  ∧ MAX_MESSAGE_LENGTH ≤ len batch
  ∧ renders m 1 3 batch
  ∧ ∀ lo, ¬ renders m lo (S lo) batch.
Proof.
  cbn zeta.
  assert (Hbatch : len (rendering [10000; 10000]) = 20062) by evaluate.
  split; [evaluate|]. split; [by rewrite Hbatch|].
  split; [exists 20062; evaluate|].
  intros lo [l Hren]. apply rendered_len_inv in Hren. rewrite Hbatch in Hren.
  change (Alerts (message [10000; 10000; 10000]))
    with [alert 10000; alert 10000; alert 10000] in Hren.
  destruct (slice_one_of_three (alert 10000) lo) as [Hone|Hone];
    rewrite Hone in Hren.
  - assert (Hlen : rendered_len
              (set_Alerts (message [10000; 10000; 10000]) [alert 10000])
            = Some 10062) by evaluate.
    rewrite Hlen in Hren. discriminate Hren.
  - assert (Hlen : rendered_len
              (set_Alerts (message [10000; 10000; 10000]) [])
            = Some 62) by evaluate.
    rewrite Hlen in Hren. discriminate Hren.
Qed.

(** The single oversized alert of the specification's scenario C: one
    alert rendering to 25062 bytes comes back alone, in one batch. *)
Lemma Buildv2_scenario_C :
  Buildv2 (message [25000]) = (message [25000], OK [rendering [25000]])
  ∧ len (rendering [25000]) = 25062.
Proof. split; evaluate. Qed.

(** What [Buildv2] leaves behind [m] on the message of C2: the second
    alert alone. *)
Lemma Buildv2_leaves_second_alert :
  Alerts (fst (Buildv2 (message [20000; 10]))) = [alert 10].
Proof. evaluate. Qed.

Lemma Buildv2_no_split_witness :
  Buildv2 (message [3; 2]) = (message [3; 2], OK [rendering [3; 2]])
  ∧ MAX_MESSAGE_LENGTH = 20000.
Proof.
  apply (Buildv2_no_split marshal builder (message [3; 2])
           {| MessageType := "markdown";
              Markdown := Some {| Title := "alerts"; Text := "aaaaa" |};
              At := None |}
           (rendering [3; 2])).
  - vm_compute. reflexivity.
  - vm_compute. reflexivity.
  - vm_compute. reflexivity.
Defined.

(** A builder for a target that mentions two mobiles. *)
Lemma Build_notification_witness :
  let r := NewDingNotificationBuilder engine
             {| MsgTitle := "alerts"; MsgText := descriptions |}
             {| TargetURL := TargetURL plain_target; Secret := EmptyString;
                Mention := Some {| All := false; Mobiles := ["139"; "138"] |};
                Message := None |} in
  ∃ n, Build r (message [3; 2]) = OK n
       ∧ MessageType n = "markdown"
       ∧ Markdown n = Some {| Title := "alerts"; Text := "aaaaa" |}
       ∧ (is_Some (At n) ↔ is_Some (Mention (target r)))
       ∧ (∀ mention, Mention (target r) = Some mention →
            At n = Some {| IsAtAll := All mention;
                           AtMobiles := Mobiles mention |}).
Proof.
  intros r.
  apply (proj1 (Build_notification r (message [3; 2])) "alerts" "aaaaa").
  - vm_compute. reflexivity.
  - vm_compute. reflexivity.
Defined.

End Scenarios.

(** ** Signing and transport, for every standard-library instance *)

Section TransportProperties.

Variable json_Marshal : DingTalkNotification -> result bytes.
Variable json_Decode : bytes -> result DingTalkNotificationResponse * bytes.
Variable hmac_sha256 : bytes -> bytes -> bytes.
Variable base64_EncodeToString : bytes -> string.
Variable URL_Query : URL -> gmap string (list string).
Variable Values_Encode : gmap string (list string) -> string.
Variable URL_String : URL -> string.
Variable url_Parse_error : string -> option error.

Local Abbreviation exchange := (exchange json_Decode).
Local Abbreviation signature_of :=
  (signature_of hmac_sha256 base64_EncodeToString).
Local Abbreviation signed_URL :=
  (signed_URL hmac_sha256 base64_EncodeToString URL_Query Values_Encode).
Local Abbreviation SendNotification :=
  (SendNotification json_Marshal json_Decode hmac_sha256
     base64_EncodeToString URL_Query Values_Encode URL_String url_Parse_error).
Local Abbreviation SendNotificationV2 :=
  (SendNotificationV2 json_Decode URL_String url_Parse_error).
Local Abbreviation post_request := (post_request URL_String).

Lemma exchange_sent (httpClient : Client) (httpReq : Request) :
  sent (exchange httpClient httpReq) = [httpReq].
Proof.
  unfold exchange. destruct (httpClient httpReq) as [resp|]; [|reflexivity].
  destruct (bool_decide _); [reflexivity|].
  by destruct (json_Decode _) as [[robotResp|] rest].
Qed.

(** What an exchange returns and leaves behind, by status code. *)
Lemma exchange_response (httpClient : Client) (httpReq : Request)
    (resp : Response) :
  httpClient httpReq = OK resp →
  body_after (exchange httpClient httpReq)
  = Some {| unread := []; closed := true |}
  ∧ (StatusCode resp ≠ 200 →
     ret (exchange httpClient httpReq)
     = Err (UnacceptableResponseCode (StatusCode resp)))
  ∧ (StatusCode resp = 200 →
     ret (exchange httpClient httpReq)
     = match fst (json_Decode (unread (RespBody resp))) with
       | OK robotResp => OK robotResp
       | Err err => Err (Wrap err "error decoding response from DingTalk")
       end).
Proof.
  intros Hresp. unfold exchange. rewrite Hresp.
  destruct (bool_decide_reflect (StatusCode resp ≠ 200)) as [Hne|Heq].
  - split; [done|]. split; [done|]. intros Heq. by destruct Hne.
  - destruct (json_Decode _) as [[robotResp|err] rest];
      (split; [done|]); (split; [|done]); intros Hne; by destruct Heq.
Qed.

(** The requests [SendNotificationV2] hands to the client: none when the
    request cannot be built, else one POST of the body to the target's
    URL. *)
Lemma SendNotificationV2_sent (body : bytes) (httpClient : Client)
    (target : Target) :
  sent (SendNotificationV2 body httpClient target)
  = match url_Parse_error (URL_String (TargetURL target)) with
    | Some _ => []
    | None => [post_request (TargetURL target) body]
    end.
Proof.
  unfold SendNotificationV2, http_NewRequest.
  destruct (url_Parse_error _); [reflexivity|]. by rewrite exchange_sent.
Qed.

(** The requests [SendNotification] hands to the client: none when the
    notification does not encode or the request cannot be built, else one
    POST of the encoded notification to the URL of the signing block. *)
Lemma SendNotification_sent (now : Z) (notification : DingTalkNotification)
    (httpClient : Client) (target : Target) :
  sent (SendNotification now notification httpClient target)
  = match json_Marshal notification with
    | Err _ => []
    | OK body =>
        match url_Parse_error (URL_String (signed_URL now target)) with
        | Some _ => []
        | None => [post_request (signed_URL now target) body]
        end
    end.
Proof.
  unfold SendNotification, http_NewRequest.
  destruct (json_Marshal notification) as [body|]; [|reflexivity].
  destruct (url_Parse_error _); [reflexivity|]. by rewrite exchange_sent.
Qed.

(** C7: once the client has answered a delivery attempt of either
    transport, the response body is left drained and closed; a status code
    other than 200 gives the error carrying that code, whatever the body
    holds; status 200 gives the response decoded from the body, or the
    decoder's error wrapped. *)
Theorem delivery_response (now : Z) (notification : DingTalkNotification)
    (body : bytes) (httpClient : Client) (target : Target) :
  let validated (out : SendOutcome) :=
    ∀ req resp,
      sent out = [req] → httpClient req = OK resp →
      body_after out = Some {| unread := []; closed := true |}
      ∧ (StatusCode resp ≠ 200 →
         ret out = Err (UnacceptableResponseCode (StatusCode resp)))
      ∧ (StatusCode resp = 200 →
         ret out
         = match fst (json_Decode (unread (RespBody resp))) with
           | OK robotResp => OK robotResp
           | Err err => Err (Wrap err "error decoding response from DingTalk")
           end) in
  validated (SendNotification now notification httpClient target)
  ∧ validated (SendNotificationV2 body httpClient target).
Proof.
  cbn zeta. split; intros req resp.
  - rewrite SendNotification_sent.
    unfold SendNotification, http_NewRequest.
    destruct (json_Marshal notification) as [encoded|]; [|discriminate].
    destruct (url_Parse_error _); [discriminate|].
    intros [= <-]. apply exchange_response.
  - rewrite SendNotificationV2_sent.
    unfold SendNotificationV2, http_NewRequest.
    destruct (url_Parse_error _); [discriminate|].
    intros [= <-]. apply exchange_response.
Qed.

(** C6: with an empty secret the signing block is the identity on the
    target's URL: [SendNotification] sends its one request, the POST of
    the encoded notification, to that URL as configured, with no query
    parameter added. *)
Theorem SendNotification_unsigned (now : Z)
    (notification : DingTalkNotification) (httpClient : Client)
    (target : Target) :
  Secret target = EmptyString →
  signed_URL now target = TargetURL target
  ∧ sent (SendNotification now notification httpClient target)
    = match json_Marshal notification with
      | Err _ => []
      | OK body =>
          match url_Parse_error (URL_String (TargetURL target)) with
          | Some _ => []
          | None => [post_request (TargetURL target) body]
          end
      end
  ∧ ∀ body, ReqURL (post_request (TargetURL target) body)
            = URL_String (TargetURL target).
Proof.
  intros Hsecret.
  assert (Hid : signed_URL now target = TargetURL target).
  { unfold signed_URL. rewrite Hsecret.
    rewrite bool_decide_false; [reflexivity | intros H; by apply H]. }
  split; [exact Hid|]. split; [|reflexivity].
  by rewrite SendNotification_sent, Hid.
Qed.

(** C5: with a non-empty secret, the URL [SendNotification] posts to is
    the target's URL with its raw query replaced by the encoding of the
    query in which [timestamp] was set to the clock's decimal milliseconds
    [t] and [sign] to base64(HMAC-SHA256(key = secret, message = t, a line
    feed, secret)); base and fragment are the target's.  In that query both
    keys hold that single value and every other key keeps its values.  The
    one request sent is the POST to the string of that URL.  For the secret
    "abc" at 1000 ms the signed message is the eight bytes of "1000", line
    feed, "abc". *)
Theorem SendNotification_signed (now : Z)
    (notification : DingTalkNotification) (httpClient : Client)
    (target : Target) :
  Secret target ≠ EmptyString →
  let secret := Secret target in
  let t := FormatInt10 (Z.quot now 1000000) in
  let sign :=
    base64_EncodeToString
      (hmac_sha256 (list_byte_of_string secret)
         (list_byte_of_string (t ++ LF ++ secret))) in
  let qs := URL_Query (TargetURL target) in
  let qs' := <["sign" := [sign]]> (<["timestamp" := [t]]> qs) in
  let signed :=
    {| Base := Base (TargetURL target);
       RawQuery := Values_Encode qs';
       Fragment := Fragment (TargetURL target) |} in
  signed_URL now target = signed
  ∧ sent (SendNotification now notification httpClient target)
    = match json_Marshal notification with
      | Err _ => []
      | OK body =>
          match url_Parse_error (URL_String signed) with
          | Some _ => []
          | None =>
              [ {| Method := "POST"; ReqURL := URL_String signed;
                   Header := {[ "Content-Type" := ["application/json"] ]};
                   ReqBody := body |} ]
          end
      end
  ∧ qs' !! "timestamp" = Some [t]
  ∧ qs' !! "sign" = Some [sign]
  ∧ (∀ key, key ≠ "timestamp" → key ≠ "sign" → qs' !! key = qs !! key)
  ∧ (secret = "abc" → now = 1000 * 1000000 →
     sign = base64_EncodeToString
              (hmac_sha256 [x61; x62; x63]
                 [x31; x30; x30; x30; x0a; x61; x62; x63])).
Proof.
  intros Hsecret secret t sign qs qs' signed.
  assert (Hurl : signed_URL now target = signed).
  { unfold signed_URL. by rewrite bool_decide_true. }
  split; [exact Hurl|]. split; [|split; [|split; [|split]]].
  - by rewrite SendNotification_sent, Hurl.
  - subst qs'. by rewrite lookup_insert_ne, lookup_insert_eq.
  - subst qs'. by rewrite lookup_insert_eq.
  - intros key Ht Hs. subst qs'. by rewrite !lookup_insert_ne.
  - intros Habc Hnow. subst sign t. by rewrite Habc, Hnow.
Qed.

(** C9: [SendNotificationV2] sends at most one request, a POST of the
    body to the target's URL as configured, and does the same whatever the
    target's secret is. *)
Theorem SendNotificationV2_unsigned (body : bytes) (httpClient : Client)
    (target : Target) :
  sent (SendNotificationV2 body httpClient target)
  = match url_Parse_error (URL_String (TargetURL target)) with
    | Some _ => []
    | None => [post_request (TargetURL target) body]
    end
  ∧ ReqURL (post_request (TargetURL target) body)
    = URL_String (TargetURL target)
  ∧ ∀ secret,
      SendNotificationV2 body httpClient (set_Secret target secret)
      = SendNotificationV2 body httpClient target.
Proof.
  split; [apply SendNotificationV2_sent|]. split; reflexivity.
Qed.

End TransportProperties.

(** ** The transports on concrete targets *)

Section TransportScenarios.

Import Fixture.

(** With the secret "abc" at 1000 ms, the request goes to the target's
    URL with [timestamp] and the escaped signature in its query. *)
Lemma send_signed_example :
  let out := send (1000 * 1000000) notification (answering 200 reply_ok)
               signed_target in
  map ReqURL (sent out)
  = ["https://oapi.dingtalk.com/robot/send?access_token=t&sign=MQ%2BJnln7AzXqa9wWfAkS%2FiY1TYgcacvGLmwMCK4WJi0%3D&timestamp=1000"]
  ∧ body_after out = Some {| unread := []; closed := true |}
  ∧ ret out = OK {| ErrorCode := 0; ErrorMessage := "ok" |}.
Proof. cbn zeta. split; [|split]; evaluate. Qed.

(** Prior values of [timestamp] and [sign] in the query are replaced. *)
Lemma send_resigned_example :
  map ReqURL
    (sent (send (1000 * 1000000) notification (answering 200 reply_ok)
             {| TargetURL :=
                  {| Base := "https://oapi.dingtalk.com/robot/send";
                     RawQuery := "sign=old&timestamp=5&access_token=t";
                     Fragment := EmptyString |};
                Secret := "abc"; Mention := None; Message := None |}))
  = ["https://oapi.dingtalk.com/robot/send?access_token=t&sign=MQ%2BJnln7AzXqa9wWfAkS%2FiY1TYgcacvGLmwMCK4WJi0%3D&timestamp=1000"].
Proof. vm_compute. reflexivity. Qed.

(** [SendNotificationV2] on the same signed target: the URL as
    configured. *)
Lemma send_v2_example :
  map ReqURL (sent (send_v2 (rendering [3]) (answering 200 reply_ok)
                      signed_target))
  = ["https://oapi.dingtalk.com/robot/send?access_token=t"].
Proof. vm_compute. reflexivity. Qed.

Lemma SendNotification_signed_witness :
  Secret signed_target ≠ EmptyString
  ∧ RawQuery
      (signed_URL GoStd.hmac_sha256 GoStd.base64_EncodeToString
         GoStd.URL_Query GoStd.Values_Encode (1000 * 1000000) signed_target)
    = "access_token=t&sign=MQ%2BJnln7AzXqa9wWfAkS%2FiY1TYgcacvGLmwMCK4WJi0%3D&timestamp=1000".
Proof.
  assert (Hsecret : Secret signed_target ≠ EmptyString) by discriminate.
  split; [exact Hsecret|].
  pose proof (SendNotification_signed marshal decode GoStd.hmac_sha256
                GoStd.base64_EncodeToString GoStd.URL_Query
                GoStd.Values_Encode GoStd.URL_String GoStd.url_Parse_error
                (1000 * 1000000) notification (answering 200 reply_ok)
                signed_target Hsecret) as Hsigned.
  cbn zeta in Hsigned. destruct Hsigned as [Hurl _].
  rewrite Hurl. cbn [RawQuery]. evaluate.
Defined.

Lemma SendNotification_unsigned_witness :
  signed_URL GoStd.hmac_sha256 GoStd.base64_EncodeToString GoStd.URL_Query
    GoStd.Values_Encode (1000 * 1000000) plain_target
  = TargetURL plain_target.
Proof.
  apply (SendNotification_unsigned marshal decode GoStd.hmac_sha256
           GoStd.base64_EncodeToString GoStd.URL_Query GoStd.Values_Encode
           GoStd.URL_String GoStd.url_Parse_error (1000 * 1000000)
           notification (answering 200 reply_ok) plain_target).
  reflexivity.
Defined.

(** Scenario E: on status 500 the delivery fails with the code, and the
    body is drained and closed. *)
Lemma delivery_response_witness :
  let out := send (1000 * 1000000) notification (answering 500 "oops")
               plain_target in
  body_after out = Some {| unread := []; closed := true |}
  ∧ ret out = Err (UnacceptableResponseCode 500).
Proof.
  intros out.
  destruct (proj1 (delivery_response marshal decode GoStd.hmac_sha256
                     GoStd.base64_EncodeToString GoStd.URL_Query
                     GoStd.Values_Encode GoStd.URL_String
                     GoStd.url_Parse_error (1000 * 1000000) notification
                     (rendering [3]) (answering 500 "oops") plain_target)
              (post_request GoStd.URL_String (TargetURL plain_target)
                 (rendering [3]))
              {| StatusCode := 500;
                 RespBody := {| unread := list_byte_of_string "oops";
                                closed := false |} |})
    as (Hbody & Hcode & _).
  - vm_compute. reflexivity.
  - reflexivity.
  - split; [exact Hbody|]. apply Hcode. discriminate.
Defined.

End TransportScenarios.

(** ** More on the builder and the splitter *)

Section SplitterProperties.

Variable json_Marshal : DingTalkNotification -> result bytes.

Local Abbreviation ResolvedTmpl := (ResolvedTmpl json_Marshal).
Local Abbreviation Buildv2_body := (Buildv2_body json_Marshal).
Local Abbreviation Buildv2_loop := (Buildv2_loop json_Marshal).
Local Abbreviation Buildv2 := (Buildv2 json_Marshal).
Local Abbreviation Buildv2_candidates := (Buildv2_candidates json_Marshal).
Local Abbreviation renders := (renders json_Marshal).
Local Abbreviation covers := (covers json_Marshal).
Local Abbreviation greedy_cuts := (greedy_cuts json_Marshal).
Local Abbreviation loop_invariant := (loop_invariant json_Marshal).

(** X1: [ResolvedTmpl] is [Build] followed by [json.Marshal] on every
    path: a template error comes back as [Build] returns it, an encoding
    error comes back wrapped, and the length reported with a body is the
    body's. *)
Theorem ResolvedTmpl_Build_Marshal (r : DingNotificationBuilder)
    (m : WebhookMessage) :
  ResolvedTmpl r m
  = match Build r m with
    | Err err => Err err
    | OK notification =>
        match json_Marshal notification with
        | Err err => Err (Wrap err "error encoding DingTalk request")
        | OK body => OK (body, len body)
        end
    end.
Proof.
  unfold ResolvedTmpl, Build, bind.
  destruct (renderTitle r m) as [title|]; [|reflexivity].
  by destruct (renderText r m) as [content|].
Qed.

(** X2: a target-level message replaces the title and the text templates
    together: the builder, and so every notification it builds, is the
    same whatever the default message, also where the target's title or
    text is empty; without a target-level message both templates are the
    default's. *)
Theorem NewDingNotificationBuilder_precedence (tmpl : Template)
    (defaultMessage : TargetMessage) (target : Target) :
  (∀ override,
     Message target = Some override →
     (∀ other, NewDingNotificationBuilder tmpl other target
               = NewDingNotificationBuilder tmpl defaultMessage target)
     ∧ ∀ m, Build (NewDingNotificationBuilder tmpl defaultMessage target) m
            = Build {| tmpl := tmpl; target := target;
                       titleTpl := MsgTitle override;
                       textTpl := MsgText override |} m)
  ∧ (Message target = None →
     ∀ m, Build (NewDingNotificationBuilder tmpl defaultMessage target) m
          = Build {| tmpl := tmpl; target := target;
                     titleTpl := MsgTitle defaultMessage;
                     textTpl := MsgText defaultMessage |} m).
Proof.
  unfold NewDingNotificationBuilder. split.
  - intros override ->. by split.
  - by intros ->.
Qed.

(** *** The invariant of the loop *)

Lemma greedy_cuts_nil (r : DingNotificationBuilder) (m : WebhookMessage)
    (lo hi : nat) :
  greedy_cuts r m lo hi [] ↔ lo = hi.
Proof. reflexivity. Qed.

Lemma greedy_cuts_cons (r : DingNotificationBuilder) (m : WebhookMessage)
    (lo hi : nat) (batch : bytes) (rest : list bytes) :
  greedy_cuts r m lo hi (batch :: rest)
  ↔ ∃ mid, (lo < mid ≤ hi)%nat
           ∧ renders r m lo mid batch
           ∧ (len batch < MAX_MESSAGE_LENGTH →
              ∃ next l,
                ResolvedTmpl r (set_Alerts m (slice (Alerts m) lo (S mid)))
                = OK (next, l)
                ∧ MAX_MESSAGE_LENGTH ≤ l)
           ∧ greedy_cuts r m mid hi rest.
Proof. reflexivity. Qed.

Lemma greedy_cuts_le (r : DingNotificationBuilder) (m : WebhookMessage)
    (batches : list bytes) :
  ∀ lo hi, greedy_cuts r m lo hi batches → (lo ≤ hi)%nat.
Proof.
  induction batches as [|batch rest IH]; intros lo hi.
  - rewrite greedy_cuts_nil. lia.
  - rewrite greedy_cuts_cons. intros (mid & Hmid & _ & _ & Hrest).
    specialize (IH _ _ Hrest). lia.
Qed.

(** Cuts are of non-empty ranges: there are no more batches than alerts
    in the range. *)
Lemma greedy_cuts_length (r : DingNotificationBuilder) (m : WebhookMessage)
    (batches : list bytes) :
  ∀ lo hi, greedy_cuts r m lo hi batches → (lo + length batches ≤ hi)%nat.
Proof.
  induction batches as [|batch rest IH]; intros lo hi.
  - rewrite greedy_cuts_nil. cbn. lia.
  - rewrite greedy_cuts_cons. intros (mid & Hmid & _ & _ & Hrest).
    specialize (IH _ _ Hrest). cbn [length]. lia.
Qed.

Lemma greedy_cuts_app (r : DingNotificationBuilder) (m : WebhookMessage)
    (batches batches' : list bytes) (mid hi : nat) :
  greedy_cuts r m mid hi batches' →
  ∀ lo, greedy_cuts r m lo mid batches →
        greedy_cuts r m lo hi (batches ++ batches').
Proof.
  intros Htail. pose proof (greedy_cuts_le _ _ _ _ _ Htail) as Hle.
  induction batches as [|batch rest IH]; intros lo.
  - rewrite greedy_cuts_nil. by intros ->.
  - rewrite <- app_comm_cons, !greedy_cuts_cons.
    intros (cut & Hcut & Hren & Hnext & Hrest).
    exists cut. split; [lia|]. split; [done|]. split; [done|]. by apply IH.
Qed.

(** Cuts that reach the last alert cover the alert sequence. *)
Lemma greedy_cuts_covers (r : DingNotificationBuilder) (m : WebhookMessage)
    (batches : list bytes) :
  ∀ lo, greedy_cuts r m lo (length (Alerts m)) batches → covers r m lo batches.
Proof.
  induction batches as [|batch rest IH]; intros lo.
  - by rewrite greedy_cuts_nil.
  - rewrite greedy_cuts_cons. intros (mid & Hmid & Hren & _ & Hrest).
    exists mid. split; [lia|]. split; [done|]. by apply IH.
Qed.

Lemma nonempty_of_len (b : bytes) : negb (len b =? 0) = true → b ≠ [].
Proof. by intros H ->. Qed.

Lemma loop_invariant_init (r : DingNotificationBuilder) (m : WebhookMessage) :
  loop_invariant r m 0 (Buildv2_init m).
Proof. repeat split; try done. by left. Qed.

(** One iteration that does not fail keeps the invariant. *)
Lemma Buildv2_body_invariant (r : DingNotificationBuilder)
    (m : WebhookMessage) (index : nat) (st st' : LoopState) :
  loop_invariant r m index st →
  Buildv2_body r (Alerts m) (S index) st = (st', None) →
  loop_invariant r m (S index) st'.
Proof.
  intros (Hset & Hle & Hcuts & Hlast & Hend). unfold Buildv2_body.
  rewrite Hset.
  destruct (ResolvedTmpl r _) as [[data l]|] eqn:Hren; [|discriminate].
  destruct (ResolvedTmpl_inv _ _ _ _ _ Hren) as [Hl _].
  destruct (Z.ltb_spec l MAX_MESSAGE_LENGTH) as [Hfit|Hover].
  - intros [= <-]. unfold loop_invariant.
    cbn [msg lastIndex lastData sendDatas].
    split; [done|]. split; [lia|]. split; [exact Hcuts|]. split.
    + intros _. split; [lia|]. split; [by exists l|]. split; [lia|reflexivity].
    + intros Heq. lia.
  - destruct (negb (len (lastData st) =? 0)) eqn:Hremembered; intros [= <-];
      unfold loop_invariant; cbn [msg lastIndex lastData sendDatas].
    + destruct (Hlast (nonempty_of_len _ Hremembered))
        as (Hlt & Hold & Hlen & _).
      replace (S index - 1)%nat with index by lia. rewrite ?Nat.sub_0_r.
      split; [done|]. split; [lia|]. split; [|split; [done|intros Heq; lia]].
      apply (greedy_cuts_app r m _ _ (lastIndex st) index); [|exact Hcuts].
      apply greedy_cuts_cons. exists index.
      split; [lia|]. split; [exact Hold|].
      split; [|by apply greedy_cuts_nil].
      intros _. by exists data, l.
    + split; [done|]. split; [lia|]. split; [|split; [done|]].
      * apply (greedy_cuts_app r m _ _ (lastIndex st) (S index));
          [|exact Hcuts].
        apply greedy_cuts_cons. exists (S index).
        split; [lia|]. split; [by exists l|].
        split; [|by apply greedy_cuts_nil].
        intros Hshort. lia.
      * intros _. right. exists (sendDatas st), data.
        split; [reflexivity|lia].
Qed.

(** The loop keeps the invariant as long as no rendering fails. *)
Lemma Buildv2_loop_invariant (r : DingNotificationBuilder)
    (m : WebhookMessage) (count : nat) :
  ∀ index st st',
    loop_invariant r m index st →
    Buildv2_loop r (Alerts m) (seq (S index) count) st = (st', None) →
    loop_invariant r m (index + count) st'.
Proof.
  induction count as [|count IH]; intros index st st' Hinv.
  - cbn [seq]. rewrite Buildv2_loop_nil, Nat.add_0_r. by intros [= <-].
  - rewrite <- cons_seq, Buildv2_loop_cons.
    destruct (Buildv2_body r (Alerts m) (S index) st) as [st1 [err|]] eqn:Hbody;
      cbn [fst snd]; [discriminate|].
    intros Hloop. replace (index + S count)%nat with (S index + count)%nat by lia.
    apply (IH (S index) st1 st'); [|exact Hloop].
    by apply (Buildv2_body_invariant r m index st st1).
Qed.

(** On the splitting path, a loop that runs to its end leaves the
    invariant at the last index. *)
Lemma Buildv2_loop_end (r : DingNotificationBuilder) (m : WebhookMessage)
    (st : LoopState) :
  Buildv2_loop r (Alerts m) (seq 1 (length (Alerts m))) (Buildv2_init m)
  = (st, None) →
  loop_invariant r m (length (Alerts m)) st.
Proof.
  intros Hloop.
  apply (Buildv2_loop_invariant r m (length (Alerts m)) 0 (Buildv2_init m) st);
    [apply loop_invariant_init | exact Hloop].
Qed.

(** The batches [Buildv2] returns on the splitting path, from the state
    the loop ends in. *)
Lemma Buildv2_split_result (r : DingNotificationBuilder) (m : WebhookMessage)
    (data : bytes) (oriLen : Z) (batches : list bytes) :
  ResolvedTmpl r m = OK (data, oriLen) → MAX_MESSAGE_LENGTH ≤ oriLen →
  snd (Buildv2 r m) = OK batches →
  ∃ st,
    Buildv2_loop r (Alerts m) (seq 1 (length (Alerts m))) (Buildv2_init m)
    = (st, None)
    ∧ ((lastData st = [] ∧ batches = sendDatas st)
       ∨ (lastData st ≠ [] ∧ batches = sendDatas st ++ [data])).
Proof.
  intros Hfull Hlen. rewrite (Buildv2_split _ _ _ _ _ Hfull Hlen). cbn zeta.
  destruct (Buildv2_loop _ _ _ _) as [st [err|]]; cbn [fst snd];
    [discriminate|].
  destruct (negb (len (lastData st) =? 0)) eqn:Hremembered; cbn [snd];
    intros [= <-]; exists st; (split; [reflexivity|]).
  - right. split; [by apply nonempty_of_len | reflexivity].
  - left. split; [|reflexivity].
    destruct (lastData st) as [|b rest]; [reflexivity|].
    by rewrite len_nonempty in Hremembered.
Qed.

(** X3: on the splitting path, the batches [Buildv2] returns are, up to
    one last batch, greedy cuts of a prefix of the alert sequence:
    renderings of consecutive, non-empty ranges that start at the first
    alert, in order, each batch below the limit being followed by an alert
    that would take it to the limit or over.  The one batch that may follow
    is the rendering of the whole message; the prefix then stops short of
    the last alert. *)
Theorem Buildv2_cuts_prefix (r : DingNotificationBuilder) (m : WebhookMessage)
    (data : bytes) (oriLen : Z) (batches : list bytes) :
  ResolvedTmpl r m = OK (data, oriLen) → MAX_MESSAGE_LENGTH ≤ oriLen →
  snd (Buildv2 r m) = OK batches →
  ∃ (stop : nat) (prefix : list bytes),
    (stop ≤ length (Alerts m))%nat
    ∧ greedy_cuts r m 0 stop prefix
    ∧ (batches = prefix
       ∨ (batches = prefix ++ [data] ∧ (stop < length (Alerts m))%nat)).
Proof.
  intros Hfull Hlen Hok.
  destruct (Buildv2_split_result _ _ _ _ _ Hfull Hlen Hok)
    as (st & Hloop & Hcases).
  destruct (Buildv2_loop_end _ _ _ Hloop) as (_ & Hle & Hcuts & Hlast & _).
  exists (lastIndex st), (sendDatas st). split; [exact Hle|].
  split; [exact Hcuts|].
  destruct Hcases as [[_ ->]|[Hne ->]]; [by left|right].
  split; [reflexivity|]. by destruct (Hlast Hne).
Qed.

(** X4: on the splitting path [Buildv2] never returns more batches than
    the message has alerts; a message without alerts that renders to the
    limit or over comes back as no batch at all. *)
Theorem Buildv2_batch_count (r : DingNotificationBuilder) (m : WebhookMessage)
    (data : bytes) (oriLen : Z) (batches : list bytes) :
  ResolvedTmpl r m = OK (data, oriLen) → MAX_MESSAGE_LENGTH ≤ oriLen →
  snd (Buildv2 r m) = OK batches →
  (length batches ≤ length (Alerts m))%nat
  ∧ (Alerts m = [] → batches = []).
Proof.
  intros Hfull Hlen Hok.
  destruct (Buildv2_split_result _ _ _ _ _ Hfull Hlen Hok)
    as (st & Hloop & Hcases).
  destruct (Buildv2_loop_end _ _ _ Hloop) as (_ & Hle & Hcuts & Hlast & _).
  pose proof (greedy_cuts_length _ _ _ _ _ Hcuts) as Hcount.
  assert (Hbound : (length batches ≤ length (Alerts m))%nat).
  { destruct Hcases as [[_ ->]|[Hne ->]]; [lia|].
    destruct (Hlast Hne) as [Hlt _]. rewrite length_app. cbn. lia. }
  split; [exact Hbound|]. intros Hnone. rewrite Hnone in Hbound.
  destruct batches; [reflexivity|cbn in Hbound; lia].
Qed.

(** X5: whenever the loop ends with a remembered batch, that batch is the
    rendering of the alerts from [lastIndex] to the last and is below the
    limit, and the batch [Buildv2] returns last is another one: the
    rendering of the whole message, at the limit or over. *)
Theorem Buildv2_flush_oversized (r : DingNotificationBuilder)
    (m : WebhookMessage) (data : bytes) (oriLen : Z) (st : LoopState) :
  ResolvedTmpl r m = OK (data, oriLen) → MAX_MESSAGE_LENGTH ≤ oriLen →
  Buildv2_loop r (Alerts m) (seq 1 (length (Alerts m))) (Buildv2_init m)
  = (st, None) →
  lastData st ≠ [] →
  snd (Buildv2 r m) = OK (sendDatas st ++ [data])
  ∧ renders r m (lastIndex st) (length (Alerts m)) (lastData st)
  ∧ len (lastData st) < MAX_MESSAGE_LENGTH ≤ len data
  ∧ data ≠ lastData st.
Proof.
  intros Hfull Hlen Hloop Hne.
  destruct (Buildv2_loop_end _ _ _ Hloop) as (_ & _ & _ & Hlast & _).
  destruct (Hlast Hne) as (_ & Hren & Hshort & _).
  destruct (ResolvedTmpl_inv _ _ _ _ _ Hfull) as [-> _].
  split; [by apply (Buildv2_flush _ _ _ _ _ _ Hfull Hlen Hloop)|].
  split; [exact Hren|]. split; [lia|]. intros ->. lia.
Qed.

(** *** Alerts that are each oversized *)

Lemma Buildv2_loop_oversized (r : DingNotificationBuilder)
    (m : WebhookMessage) (count : nat) :
  (∀ i, (i < length (Alerts m))%nat →
        ∃ data l,
          ResolvedTmpl r (set_Alerts m (slice (Alerts m) i (S i)))
          = OK (data, l)
          ∧ MAX_MESSAGE_LENGTH ≤ l) →
  ∀ index st,
    (∀ a, set_Alerts (msg st) a = set_Alerts m a) →
    lastIndex st = index → lastData st = [] →
    (index + count ≤ length (Alerts m))%nat →
    ∃ st',
      Buildv2_loop r (Alerts m) (seq (S index) count) st = (st', None)
      ∧ lastIndex st' = (index + count)%nat
      ∧ lastData st' = []
      ∧ length (sendDatas st') = (length (sendDatas st) + count)%nat.
Proof.
  intros Hover.
  induction count as [|count IH]; intros index st Hset Hindex Hnone Hle.
  - exists st. rewrite Buildv2_loop_nil. repeat split; [lia|done|lia].
  - destruct (Hover index) as (data & l & Hren & Hl); [lia|].
    assert (Hbody : Buildv2_body r (Alerts m) (S index) st
              = ({| msg := set_Alerts m (slice (Alerts m) index (S index));
                    lastIndex := S index; lastData := [];
                    sendDatas := sendDatas st ++ [data] |}, None)).
    { unfold Buildv2_body. rewrite Hset, Hindex, Hren, Hnone.
      destruct (Z.ltb_spec l MAX_MESSAGE_LENGTH) as [?|_]; [lia|reflexivity]. }
    rewrite <- cons_seq, Buildv2_loop_cons, Hbody. cbn [fst snd].
    destruct (IH (S index)
                {| msg := set_Alerts m (slice (Alerts m) index (S index));
                   lastIndex := S index; lastData := [];
                   sendDatas := sendDatas st ++ [data] |})
      as (st' & Hloop & Hlast & Hdata & Hcount); try done; [lia|].
    exists st'. split; [exact Hloop|]. split; [lia|]. split; [exact Hdata|].
    rewrite Hcount. cbn [sendDatas]. rewrite length_app. cbn. lia.
Qed.

(** X6: when every alert, rendered alone, is at the limit or over (and so
    is the whole message), [Buildv2] returns one batch per alert, and the
    batches cover the alert sequence in order: no alert is dropped or sent
    twice. *)
Theorem Buildv2_all_oversized (r : DingNotificationBuilder)
    (m : WebhookMessage) (data : bytes) (oriLen : Z) :
  ResolvedTmpl r m = OK (data, oriLen) → MAX_MESSAGE_LENGTH ≤ oriLen →
  (∀ i, (i < length (Alerts m))%nat →
        ∃ one l,
          ResolvedTmpl r (set_Alerts m (slice (Alerts m) i (S i)))
          = OK (one, l)
          ∧ MAX_MESSAGE_LENGTH ≤ l) →
  ∃ batches,
    snd (Buildv2 r m) = OK batches
    ∧ length batches = length (Alerts m)
    ∧ covers r m 0 batches.
Proof.
  intros Hfull Hlen Hover.
  destruct (Buildv2_loop_oversized r m (length (Alerts m)) Hover 0
              (Buildv2_init m))
    as (st & Hloop & Hlast & Hdata & Hcount); try done.
  destruct (Buildv2_loop_end _ _ _ Hloop) as (_ & _ & Hcuts & _).
  exists (sendDatas st). rewrite (Buildv2_split _ _ _ _ _ Hfull Hlen), Hloop.
  cbn [fst snd]. rewrite Hdata. split; [reflexivity|].
  split; [exact Hcount|]. apply greedy_cuts_covers.
  change (lastIndex st = length (Alerts m)) in Hlast. by rewrite <- Hlast.
Qed.

(** *** Rendering failures *)

Lemma Buildv2_body_error (r : DingNotificationBuilder) (alerts : list Alert)
    (index : nat) (st : LoopState) :
  match snd (Buildv2_body r alerts index st) with
  | Some err =>
      ResolvedTmpl r (set_Alerts (msg st) (slice alerts (lastIndex st) index))
      = Err err
  | None =>
      is_OK (ResolvedTmpl r
               (set_Alerts (msg st) (slice alerts (lastIndex st) index)))
      = true
  end.
Proof.
  unfold Buildv2_body.
  destruct (ResolvedTmpl r _) as [[data l]|err]; [|reflexivity].
  destruct (_ <? MAX_MESSAGE_LENGTH); [reflexivity|].
  by destruct (negb _).
Qed.

Lemma Buildv2_loop_error (r : DingNotificationBuilder) (m : WebhookMessage)
    (err : error) (indices : list nat) :
  ∀ st,
    (∀ a, set_Alerts (msg st) a = set_Alerts m a) →
    snd (Buildv2_loop r (Alerts m) indices st) = Some err →
    ∃ earlier failed,
      Buildv2_candidates r (Alerts m) indices st = earlier ++ [failed]
      ∧ ResolvedTmpl r (set_Alerts m failed) = Err err
      ∧ Forall (λ c, is_OK (ResolvedTmpl r (set_Alerts m c)) = true) earlier.
Proof.
  induction indices as [|index rest IH]; intros st Hset.
  - rewrite Buildv2_loop_nil. discriminate.
  - rewrite Buildv2_loop_cons, Buildv2_candidates_cons.
    pose proof (Buildv2_body_error r (Alerts m) index st) as Hbody.
    pose proof (Buildv2_body_msg json_Marshal r (Alerts m) index st) as Hmsg.
    rewrite Hset in Hbody.
    destruct (snd (Buildv2_body r (Alerts m) index st)) as [err'|].
    + cbn [snd]. intros [= ->]. exists [], (slice (Alerts m) (lastIndex st) index).
      by repeat split.
    + intros Hrest.
      destruct (IH (fst (Buildv2_body r (Alerts m) index st)))
        as (earlier & failed & Hcands & Hfailed & Hearlier);
        [intros a; rewrite Hmsg; exact (Hset a) | exact Hrest |].
      exists (slice (Alerts m) (lastIndex st) index :: earlier), failed.
      rewrite Hcands. split; [reflexivity|]. split; [exact Hfailed|].
      by constructor.
Qed.

(** X7: when [Buildv2] fails on the splitting path, the error is the one
    of the first candidate sub-slice that does not render: the candidates
    assigned before it all rendered, it is the last one assigned, and it
    is what the message's alerts are left as. *)
Theorem Buildv2_first_error (r : DingNotificationBuilder)
    (m : WebhookMessage) (data : bytes) (oriLen : Z) (err : error) :
  ResolvedTmpl r m = OK (data, oriLen) → MAX_MESSAGE_LENGTH ≤ oriLen →
  snd (Buildv2 r m) = Err err →
  ∃ earlier failed,
    Buildv2_candidates r (Alerts m) (seq 1 (length (Alerts m)))
      (Buildv2_init m)
    = earlier ++ [failed]
    ∧ ResolvedTmpl r (set_Alerts m failed) = Err err
    ∧ Forall (λ c, is_OK (ResolvedTmpl r (set_Alerts m c)) = true) earlier
    ∧ Alerts (fst (Buildv2 r m)) = failed.
Proof.
  intros Hfull Hlen. rewrite (Buildv2_split _ _ _ _ _ Hfull Hlen). cbn zeta.
  pose proof (Buildv2_loop_msg json_Marshal r (Alerts m)
                (seq 1 (length (Alerts m))) (Buildv2_init m)) as [_ Hmsg].
  pose proof (Buildv2_loop_error r m err (seq 1 (length (Alerts m)))
                (Buildv2_init m)) as Hloop.
  destruct (snd (Buildv2_loop _ _ _ _)) as [err'|] eqn:Hsnd.
  - cbn [fst snd]. intros [= ->].
    destruct Hloop as (earlier & failed & Hcands & Hfailed & Hearlier);
      [done|done|].
    exists earlier, failed. repeat split; try done.
    by rewrite Hmsg, Hcands, last_snoc.
  - by destruct (negb _).
Qed.

(** X12: [Buildv2] is not to be called twice on one message: when the
    loop ends with a remembered batch, the message is left with the alerts
    from [lastIndex] to the last only, and a second call on it returns
    that remembered batch alone, the one the first call did not return. *)
Theorem Buildv2_again (r : DingNotificationBuilder) (m : WebhookMessage)
    (data : bytes) (oriLen : Z) (st : LoopState) :
  ResolvedTmpl r m = OK (data, oriLen) → MAX_MESSAGE_LENGTH ≤ oriLen →
  Buildv2_loop r (Alerts m) (seq 1 (length (Alerts m))) (Buildv2_init m)
  = (st, None) →
  lastData st ≠ [] →
  let m' := fst (Buildv2 r m) in
  Alerts m' = slice (Alerts m) (lastIndex st) (length (Alerts m))
  ∧ (lastIndex st < length (Alerts m))%nat
  ∧ Buildv2 r m' = (m', OK [lastData st]).
Proof.
  intros Hfull Hlen Hloop Hne.
  destruct (Buildv2_loop_end _ _ _ Hloop) as (Hset & _ & _ & Hlast & _).
  destruct (Hlast Hne) as (Hlt & [l Hren] & Hshort & Halerts).
  assert (Hleft : fst (Buildv2 r m) = msg st).
  { rewrite (Buildv2_split _ _ _ _ _ Hfull Hlen), Hloop. cbn [fst snd].
    by rewrite (len_nonempty _ Hne). }
  cbn zeta. rewrite Hleft. split; [exact Halerts|]. split; [exact Hlt|].
  assert (Hmsg : msg st
                 = set_Alerts m (slice (Alerts m) (lastIndex st)
                                   (length (Alerts m)))).
  { by rewrite <- Halerts, <- Hset, set_Alerts_same. }
  destruct (ResolvedTmpl_inv _ _ _ _ _ Hren) as [-> _].
  unfold Buildv2. rewrite Hmsg at 1. rewrite Hren.
  destruct (Z.ltb_spec (len (lastData st)) MAX_MESSAGE_LENGTH) as [_|?];
    [reflexivity|lia].
Qed.

(** X13: on the splitting path [Buildv2] never returns batches that reach
    the last alert and all stay below the limit: either the batches are
    cuts of a prefix that stops short of the last alert, or the batch
    returned last is at the limit or over. *)
Theorem Buildv2_short_or_oversized (r : DingNotificationBuilder)
    (m : WebhookMessage) (data : bytes) (oriLen : Z) (batches : list bytes) :
  ResolvedTmpl r m = OK (data, oriLen) → MAX_MESSAGE_LENGTH ≤ oriLen →
  Alerts m ≠ [] →
  snd (Buildv2 r m) = OK batches →
  (∃ stop, (stop < length (Alerts m))%nat ∧ greedy_cuts r m 0 stop batches)
  ∨ (∃ init last,
       batches = init ++ [last] ∧ MAX_MESSAGE_LENGTH ≤ len last).
Proof.
  intros Hfull Hlen Hsome Hok.
  destruct (Buildv2_split_result _ _ _ _ _ Hfull Hlen Hok)
    as (st & Hloop & Hcases).
  destruct (Buildv2_loop_end _ _ _ Hloop) as (_ & Hle & Hcuts & _ & Hend).
  destruct (ResolvedTmpl_inv _ _ _ _ _ Hfull) as [-> _].
  destruct Hcases as [[_ ->]|[_ ->]]; [|right; by exists (sendDatas st), data].
  destruct (decide (lastIndex st = length (Alerts m))) as [Hreached|Hshort].
  - destruct (Hend Hreached) as [Hnone|Hover]; [|by right].
    destruct (Alerts m); [done|discriminate Hnone].
  - left. exists (lastIndex st). split; [lia|exact Hcuts].
Qed.

(** *** The message [Buildv2] leaves behind *)

(** A loop over one index or more ends in the iteration it ran last: that
    iteration began in the state the loop reaches over the indices before
    it, and is the iteration at the last index unless it failed. *)
Lemma Buildv2_loop_last_step (r : DingNotificationBuilder)
    (alerts : list Alert) (count : nat) :
  ∀ first st,
    (lastIndex st < first)%nat →
    ∃ ran before,
      (ran ≤ count)%nat
      ∧ Buildv2_loop r alerts (seq first ran) st = (before, None)
      ∧ (lastIndex before < first + ran)%nat
      ∧ Buildv2_loop r alerts (seq first (S count)) st
        = Buildv2_body r alerts (first + ran) before
      ∧ (snd (Buildv2_body r alerts (first + ran) before) = None →
         ran = count).
Proof.
  induction count as [|count IH]; intros first st Hlt.
  - exists 0%nat, st. rewrite Nat.add_0_r. cbn [seq].
    rewrite Buildv2_loop_nil, Buildv2_loop_cons.
    split; [lia|]. split; [reflexivity|]. split; [exact Hlt|].
    split; [|done].
    destruct (Buildv2_body r alerts first st) as [st' [err|]]; reflexivity.
  - rewrite <- cons_seq, Buildv2_loop_cons.
    pose proof (Buildv2_body_lastIndex json_Marshal r alerts first st Hlt)
      as Hlt'.
    destruct (Buildv2_body r alerts first st) as [st1 [err|]] eqn:Hbody;
      cbn [fst snd] in *.
    + exists 0%nat, st. rewrite Nat.add_0_r, Hbody. cbn [seq snd].
      rewrite Buildv2_loop_nil.
      split; [lia|]. split; [reflexivity|]. split; [exact Hlt|].
      split; [reflexivity|discriminate].
    + destruct (IH (S first) st1 Hlt')
        as (ran & before & Hran & Hprefix & Hlast & Hloop & Hend).
      exists (S ran), before.
      replace (first + S ran)%nat with (S first + ran)%nat by lia.
      split; [lia|]. split.
      { rewrite <- cons_seq, Buildv2_loop_cons, Hbody. exact Hprefix. }
      split; [exact Hlast|]. split; [exact Hloop|].
      intros Hnone. by rewrite (Hend Hnone).
Qed.

Lemma slice_whole {A} (l : list A) (lo hi : nat) :
  (lo < hi ≤ length l)%nat →
  slice l lo hi = l ↔ lo = 0%nat ∧ hi = length l.
Proof.
  intros Hrange. split.
  - intros Heq. apply (f_equal length) in Heq.
    rewrite slice_length in Heq by lia. lia.
  - intros [-> ->]. apply slice_all.
Qed.

(** C10, as amended: on the splitting path [Buildv2] leaves behind the
    pointer [m] a message that differs from the one it received in its
    alerts only.  With no alerts it leaves the message as it was.
    Otherwise the alerts it leaves are the sub-slice
    [alerts[lastIndex:index]] assigned by the iteration the loop ran last,
    [lastIndex] being the value the loop had reached over the indices
    before [index]; that iteration is the one at the last index unless it
    failed, in which case its rendering is the error returned.  The slice
    is the whole original sequence exactly when [lastIndex] is 0 and
    [index] is the last index, and is shorter otherwise. *)
Theorem Buildv2_leaves_last_slice (r : DingNotificationBuilder)
    (m : WebhookMessage) (data : bytes) (oriLen : Z) :
  ResolvedTmpl r m = OK (data, oriLen) → MAX_MESSAGE_LENGTH ≤ oriLen →
  let alerts := Alerts m in
  let m' := fst (Buildv2 r m) in
  same_frame m m'
  ∧ (alerts = [] → m' = m)
  ∧ (alerts ≠ [] →
     ∃ index before,
       (1 ≤ index ≤ length alerts)%nat
       ∧ Buildv2_loop r alerts (seq 1 (index - 1)) (Buildv2_init m)
         = (before, None)
       ∧ (lastIndex before < index)%nat
       ∧ Alerts m' = slice alerts (lastIndex before) index
       ∧ length (Alerts m') = (index - lastIndex before)%nat
       ∧ (Alerts m' = alerts ↔
          lastIndex before = 0%nat ∧ index = length alerts)
       ∧ (is_OK (snd (Buildv2 r m)) = true → index = length alerts)
       ∧ (∀ err, snd (Buildv2 r m) = Err err →
                 ResolvedTmpl r
                   (set_Alerts m (slice alerts (lastIndex before) index))
                 = Err err)).
Proof.
  intros Hfull Hlen alerts m'. subst alerts m'.
  pose proof (Buildv2_loop_msg json_Marshal r (Alerts m)
                (seq 1 (length (Alerts m))) (Buildv2_init m)) as [Hframe _].
  assert (Hleft : fst (Buildv2 r m)
                  = msg (fst (Buildv2_loop r (Alerts m)
                                (seq 1 (length (Alerts m))) (Buildv2_init m)))).
  { rewrite (Buildv2_split _ _ _ _ _ Hfull Hlen). cbn zeta.
    destruct (snd (Buildv2_loop _ _ _ _)); [reflexivity|]. by destruct (negb _). }
  assert (Hresult : ∀ err,
            snd (Buildv2 r m) = Err err →
            snd (Buildv2_loop r (Alerts m) (seq 1 (length (Alerts m)))
                   (Buildv2_init m)) = Some err).
  { intros err. rewrite (Buildv2_split _ _ _ _ _ Hfull Hlen). cbn zeta.
    destruct (snd (Buildv2_loop _ _ _ _)) as [err'|]; cbn [snd];
      [by intros [= ->]|]. by destruct (negb _). }
  assert (Hsuccess : is_OK (snd (Buildv2 r m)) = true →
            snd (Buildv2_loop r (Alerts m) (seq 1 (length (Alerts m)))
                   (Buildv2_init m)) = None).
  { rewrite (Buildv2_split _ _ _ _ _ Hfull Hlen). cbn zeta.
    by destruct (snd (Buildv2_loop _ _ _ _)). }
  rewrite Hleft. split; [exact Hframe|]. split.
  - intros Hnone. rewrite Hnone. cbn [length seq]. by rewrite Buildv2_loop_nil.
  - intros Hsome. destruct (Alerts m) as [|a rest] eqn:Halerts; [done|].
    rewrite <- Halerts in *. clear Hsome.
    assert (Hn : length (Alerts m) = S (length rest)) by (by rewrite Halerts).
    rewrite Hn in *.
    destruct (Buildv2_loop_last_step r (Alerts m) (length rest) 1
                (Buildv2_init m))
      as (ran & before & Hran & Hprefix & Hlast & Hloop & Hend); [cbn; lia|].
    rewrite Hloop in *.
    destruct (Buildv2_loop_invariant r m ran 0 (Buildv2_init m) before
                (loop_invariant_init r m) Hprefix) as (Hset & _).
    pose proof (Buildv2_body_msg json_Marshal r (Alerts m) (1 + ran) before)
      as Hmsg.
    pose proof (Buildv2_body_error r (Alerts m) (1 + ran) before) as Hbody.
    rewrite Hset in Hmsg, Hbody.
    exists (1 + ran)%nat, before.
    replace (1 + ran - 1)%nat with ran by lia.
    assert (Hslice : Alerts (msg (fst (Buildv2_body r (Alerts m) (1 + ran)
                                         before)))
                     = slice (Alerts m) (lastIndex before) (1 + ran))
      by (by rewrite Hmsg).
    split; [lia|]. split; [exact Hprefix|]. split; [exact Hlast|].
    split; [exact Hslice|]. rewrite Hslice.
    split; [apply slice_length; lia|].
    split; [rewrite slice_whole by lia; lia|].
    split.
    + intros Hok. rewrite (Hend (Hsuccess Hok)). lia.
    + intros err Herr. by rewrite (Hresult err Herr) in Hbody.
Qed.

End SplitterProperties.

(** ** More on the transports *)

Section TransportOutcomes.

Variable json_Marshal : DingTalkNotification -> result bytes.
Variable json_Decode : bytes -> result DingTalkNotificationResponse * bytes.
Variable hmac_sha256 : bytes -> bytes -> bytes.
Variable base64_EncodeToString : bytes -> string.
Variable URL_Query : URL -> gmap string (list string).
Variable Values_Encode : gmap string (list string) -> string.
Variable URL_String : URL -> string.
Variable url_Parse_error : string -> option error.

Local Abbreviation exchange := (exchange json_Decode).
Local Abbreviation signed_URL :=
  (signed_URL hmac_sha256 base64_EncodeToString URL_Query Values_Encode).
Local Abbreviation SendNotification :=
  (SendNotification json_Marshal json_Decode hmac_sha256
     base64_EncodeToString URL_Query Values_Encode URL_String url_Parse_error).
Local Abbreviation SendNotificationV2 :=
  (SendNotificationV2 json_Decode URL_String url_Parse_error).
Local Abbreviation Buildv2 := (Buildv2 json_Marshal).

(** The four ways an exchange ends. *)
Lemma exchange_outcome (httpClient : Client) (httpReq : Request) :
  let out := exchange httpClient httpReq in
  sent out = [httpReq]
  ∧ ((∃ cause, httpClient httpReq = Err cause
               ∧ body_after out = None
               ∧ ret out
                 = Err (Wrap cause "error sending notification to DingTalk"))
     ∨ ∃ resp,
         httpClient httpReq = OK resp
         ∧ body_after out = Some {| unread := []; closed := true |}
         ∧ ((StatusCode resp ≠ 200
             ∧ ret out = Err (UnacceptableResponseCode (StatusCode resp)))
            ∨ (StatusCode resp = 200
               ∧ ∃ cause,
                   fst (json_Decode (unread (RespBody resp))) = Err cause
                   ∧ ret out
                     = Err (Wrap cause "error decoding response from DingTalk"))
            ∨ (StatusCode resp = 200
               ∧ ∃ robotResp,
                   fst (json_Decode (unread (RespBody resp))) = OK robotResp
                   ∧ ret out = OK robotResp))).
Proof.
  cbn zeta. split; [apply exchange_sent|]. unfold exchange.
  destruct (httpClient httpReq) as [resp|cause]; [right|left; by exists cause].
  exists resp. split; [reflexivity|].
  destruct (bool_decide_reflect (StatusCode resp ≠ 200)) as [Hne|Heq].
  - split; [reflexivity|]. by left.
  - assert (Hok : StatusCode resp = 200).
    { destruct (decide (StatusCode resp = 200)); [done|by destruct Heq]. }
    destruct (json_Decode _) as [[robotResp|cause] rest]; cbn [fst];
      (split; [reflexivity|]); right.
    + right. split; [exact Hok|]. by exists robotResp.
    + left. split; [exact Hok|]. by exists cause.
Qed.

(** X8: a transport returns a response only when it sent one request,
    the client answered it with status 200 and the body decoded to that
    response; the response comes back as decoded, whatever its error
    code. *)
Theorem delivery_success_sound (now : Z) (notification : DingTalkNotification)
    (body : bytes) (httpClient : Client) (target : Target) :
  let sound (out : SendOutcome) :=
    ∀ robotResp,
      ret out = OK robotResp →
      ∃ req resp,
        sent out = [req] ∧ httpClient req = OK resp
        ∧ StatusCode resp = 200
        ∧ fst (json_Decode (unread (RespBody resp))) = OK robotResp in
  sound (SendNotification now notification httpClient target)
  ∧ sound (SendNotificationV2 body httpClient target).
Proof.
  assert (Hexchange : ∀ req robotResp,
            ret (exchange httpClient req) = OK robotResp →
            ∃ req' resp,
              sent (exchange httpClient req) = [req']
              ∧ httpClient req' = OK resp ∧ StatusCode resp = 200
              ∧ fst (json_Decode (unread (RespBody resp))) = OK robotResp).
  { intros req robotResp Hret.
    destruct (exchange_outcome httpClient req) as [Hsent Hcases].
    exists req. rewrite Hsent.
    destruct Hcases as [(cause & _ & _ & Herr)|(resp & Hresp & _ & Hcases)];
      [congruence|].
    exists resp.
    destruct Hcases as [[_ Herr]|[(_ & cause & _ & Herr)|(Hok & r & Hdec & Hr)]];
      try congruence.
    repeat split; try done. congruence. }
  cbn zeta. split; intros robotResp.
  - unfold SendNotification, http_NewRequest.
    destruct (json_Marshal notification); [|discriminate].
    destruct (url_Parse_error _); [discriminate|]. apply Hexchange.
  - unfold SendNotificationV2, http_NewRequest.
    destruct (url_Parse_error _); [discriminate|]. apply Hexchange.
Qed.

Lemma exchange_single_attempt (httpClient : Client) (httpReq : Request) :
  single_attempt (exchange httpClient httpReq).
Proof.
  destruct (exchange_outcome httpClient httpReq) as [Hsent Hcases].
  unfold single_attempt. rewrite Hsent. split; [cbn; lia|].
  split; [discriminate|].
  destruct Hcases as [(cause & _ & Hbody & Hret)|(resp & _ & Hbody & Hcases)];
    rewrite Hbody.
  - split; [by left|]. rewrite Hret. split; [discriminate|].
    intros err [= <-]. right. exists cause, "error sending notification to DingTalk".
    split; [reflexivity|]. unfold transport_stages. set_solver.
  - split; [by right|]. split; [done|]. intros err Herr.
    destruct Hcases as [[Hne Hret]|[(_ & cause & _ & Hret)|(_ & r & _ & Hret)]];
      rewrite Hret in Herr; try discriminate.
    + injection Herr as <-. left. by exists (StatusCode resp).
    + injection Herr as <-. right.
      exists cause, "error decoding response from DingTalk".
      split; [reflexivity|]. unfold transport_stages. set_solver.
Qed.

Lemma no_exchange_single_attempt (cause : error) (stage : string) :
  stage ∈ transport_stages → single_attempt (no_exchange (Wrap cause stage)).
Proof.
  intros Hstage. unfold single_attempt, no_exchange. cbn.
  split; [lia|]. split; [done|]. split; [by left|]. split; [discriminate|].
  intros err [= <-]. right. by exists cause, stage.
Qed.

(** X9: a call of either transport makes one attempt at most; it never
    leaves a response body unread or open; a response comes with a body
    that was received; and every error is either the status-code error,
    with a code other than 200, or a cause wrapped with one of the four
    stage messages. *)
Theorem transports_single_attempt (now : Z)
    (notification : DingTalkNotification) (body : bytes)
    (httpClient : Client) (target : Target) :
  single_attempt (SendNotification now notification httpClient target)
  ∧ single_attempt (SendNotificationV2 body httpClient target).
Proof.
  split.
  - unfold SendNotification, http_NewRequest.
    destruct (json_Marshal notification);
      [|apply no_exchange_single_attempt; unfold transport_stages; set_solver].
    destruct (url_Parse_error _);
      [apply no_exchange_single_attempt; unfold transport_stages; set_solver|].
    apply exchange_single_attempt.
  - unfold SendNotificationV2, http_NewRequest.
    destruct (url_Parse_error _);
      [apply no_exchange_single_attempt; unfold transport_stages; set_solver|].
    apply exchange_single_attempt.
Qed.

(** X10: for a message whose notification encodes below the limit and a
    builder whose target has no secret, the batched path and the
    single-shot path do the same: [Buildv2] returns the one body
    [SendNotification] would encode, and [SendNotificationV2] on it sends
    the same request and returns the same result. *)
Theorem single_batch_same_delivery (r : DingNotificationBuilder)
    (m : WebhookMessage) (notification : DingTalkNotification)
    (data : bytes) (now : Z) (httpClient : Client) :
  Build r m = OK notification → json_Marshal notification = OK data →
  len data < MAX_MESSAGE_LENGTH →
  Secret (target r) = EmptyString →
  snd (Buildv2 r m) = OK [data]
  ∧ SendNotificationV2 data httpClient (target r)
    = SendNotification now notification httpClient (target r).
Proof.
  intros Hbuild Hdata Hlen Hsecret. split.
  - unfold Buildv2.
    rewrite (ResolvedTmpl_Build _ _ _ _ _ Hbuild Hdata).
    by destruct (Z.ltb_spec (len data) MAX_MESSAGE_LENGTH) as [_|?]; [|lia].
  - unfold SendNotification, SendNotificationV2, signed_URL.
    rewrite Hdata, Hsecret.
    rewrite bool_decide_false; [reflexivity | intros H; by apply H].
Qed.

(** X11: signing sets [timestamp] and [sign] whatever the query held for
    them: two targets with the same secret whose URLs differ only in the
    values of these two keys are signed to the same URL. *)
Theorem signed_URL_replaces (now : Z) (target target' : Target) :
  Secret target ≠ EmptyString → Secret target' = Secret target →
  Base (TargetURL target') = Base (TargetURL target) →
  Fragment (TargetURL target') = Fragment (TargetURL target) →
  (∀ key, key ≠ "timestamp" → key ≠ "sign" →
          URL_Query (TargetURL target') !! key
          = URL_Query (TargetURL target) !! key) →
  signed_URL now target' = signed_URL now target.
Proof.
  intros Hsecret Hsame Hbase Hfragment Hquery. unfold signed_URL.
  rewrite Hsame, bool_decide_true by done.
  unfold set_RawQuery, Values_Set. rewrite Hbase, Hfragment. do 2 f_equal.
  apply map_eq. intros key.
  destruct (decide (key = "sign")) as [->|Hsign];
    [by rewrite !lookup_insert_eq|].
  rewrite !(lookup_insert_ne _ "sign") by done.
  destruct (decide (key = "timestamp")) as [->|Htimestamp];
    [by rewrite !lookup_insert_eq|].
  rewrite !(lookup_insert_ne _ "timestamp") by done. by apply Hquery.
Qed.

(** X14: every request either transport sends is a POST whose only header
    is [Content-Type: application/json]; [SendNotification] sends the
    encoded notification as its body, [SendNotificationV2] the body it was
    given. *)
Theorem transports_request_shape (now : Z)
    (notification : DingTalkNotification) (body : bytes)
    (httpClient : Client) (target : Target) :
  (∀ req,
     req ∈ sent (SendNotification now notification httpClient target) →
     Method req = "POST"
     ∧ Header req = {[ "Content-Type" := ["application/json"] ]}
     ∧ json_Marshal notification = OK (ReqBody req))
  ∧ (∀ req,
       req ∈ sent (SendNotificationV2 body httpClient target) →
       Method req = "POST"
       ∧ Header req = {[ "Content-Type" := ["application/json"] ]}
       ∧ ReqBody req = body).
Proof.
  split; intros req.
  - rewrite SendNotification_sent.
    destruct (json_Marshal notification) as [encoded|];
      [|by intros ?%elem_of_nil].
    destruct (url_Parse_error _); [by intros ?%elem_of_nil|].
    by intros ->%list_elem_of_singleton.
  - rewrite SendNotificationV2_sent.
    destruct (url_Parse_error _); [by intros ?%elem_of_nil|].
    by intros ->%list_elem_of_singleton.
Qed.

End TransportOutcomes.

(** ** The further properties on concrete messages and targets *)

Section FurtherScenarios.

Import Fixture.

Local Abbreviation ResolvedTmpl := (ResolvedTmpl marshal).
Local Abbreviation Buildv2 := (Buildv2 marshal).
Local Abbreviation Buildv2_loop := (Buildv2_loop marshal).
Local Abbreviation Buildv2_candidates := (Buildv2_candidates marshal).
Local Abbreviation renders := (renders marshal builder).
Local Abbreviation covers := (covers marshal builder).
Local Abbreviation greedy_cuts := (greedy_cuts marshal builder).

Lemma Buildv2_cuts_prefix_witness :
  let m := message [7000; 7000; 7000] in
  ∃ (stop : nat) (prefix : list bytes),
    (stop ≤ length (Alerts m))%nat
    ∧ greedy_cuts m 0 stop prefix
    ∧ ([rendering [7000; 7000]] = prefix
       ∨ ([rendering [7000; 7000]]
          = prefix ++ [rendering [7000; 7000; 7000]]
          ∧ (stop < length (Alerts m))%nat)).
Proof.
  intros m.
  apply (Buildv2_cuts_prefix marshal builder m
           (rendering [7000; 7000; 7000]) 21062 [rendering [7000; 7000]]).
  - evaluate.
  - vm_compute. discriminate.
  - evaluate.
Defined.

Lemma Buildv2_batch_count_witness :
  let m := message [7000; 7000; 7000] in
  let batches := [rendering [7000; 7000]] in
  (length batches ≤ length (Alerts m))%nat
  ∧ (Alerts m = [] → batches = []).
Proof.
  intros m batches.
  apply (Buildv2_batch_count marshal builder m
           (rendering [7000; 7000; 7000]) 21062 batches).
  - evaluate.
  - vm_compute. discriminate.
  - evaluate.
Defined.

Lemma Buildv2_flush_oversized_witness :
  let m := message [20000; 10] in
  let st := fst (Buildv2_loop builder (Alerts m) (seq 1 (length (Alerts m)))
                   (Buildv2_init m)) in
  snd (Buildv2 builder m) = OK (sendDatas st ++ [rendering [20000; 10]])
  ∧ renders m (lastIndex st) (length (Alerts m)) (lastData st)
  ∧ len (lastData st) < MAX_MESSAGE_LENGTH ≤ len (rendering [20000; 10])
  ∧ rendering [20000; 10] ≠ lastData st.
Proof.
  intros m st.
  apply (Buildv2_flush_oversized marshal builder m
           (rendering [20000; 10]) 20072 st).
  - evaluate.
  - vm_compute. discriminate.
  - evaluate.
  - assert (Hlen : len (lastData st) = 72) by evaluate.
    intros Hnone. rewrite Hnone in Hlen. discriminate Hlen.
Defined.

Lemma Buildv2_all_oversized_witness :
  let m := message [20000; 20000] in
  ∃ batches,
    snd (Buildv2 builder m) = OK batches
    ∧ length batches = length (Alerts m)
    ∧ covers m 0 batches.
Proof.
  intros m.
  apply (Buildv2_all_oversized marshal builder m
           (rendering [20000; 20000]) 40062).
  - evaluate.
  - vm_compute. discriminate.
  - intros i Hi. exists (rendering [20000]), 20062.
    destruct i as [|[|i]].
    + split; [evaluate | vm_compute; discriminate].
    + split; [evaluate | vm_compute; discriminate].
    + cbn in Hi. lia.
Defined.

Lemma Buildv2_first_error_witness :
  let m := message [20000; 10] in
  let err := TemplateError IndexedFixture.second_status
               "error calling index: index out of range: 1" in
  ∃ earlier failed,
    Buildv2_candidates IndexedFixture.builder (Alerts m)
      (seq 1 (length (Alerts m))) (Buildv2_init m)
    = earlier ++ [failed]
    ∧ ResolvedTmpl IndexedFixture.builder (set_Alerts m failed) = Err err
    ∧ Forall (λ c, is_OK (ResolvedTmpl IndexedFixture.builder
                            (set_Alerts m c)) = true) earlier
    ∧ Alerts (fst (Buildv2 IndexedFixture.builder m)) = failed.
Proof.
  intros m err.
  apply (Buildv2_first_error marshal IndexedFixture.builder m
           (IndexedFixture.rendering [20000; 10]) 20078 err).
  - evaluate.
  - vm_compute. discriminate.
  - evaluate.
Defined.

Lemma single_batch_same_delivery_witness :
  snd (Buildv2 builder (message [3; 2])) = OK [rendering [3; 2]]
  ∧ send_v2 (rendering [3; 2]) (answering 200 reply_ok) (target builder)
    = send (1000 * 1000000)
        {| MessageType := "markdown";
           Markdown := Some {| Title := "alerts"; Text := "aaaaa" |};
           At := None |}
        (answering 200 reply_ok) (target builder).
Proof.
  apply (single_batch_same_delivery marshal decode GoStd.hmac_sha256
           GoStd.base64_EncodeToString GoStd.URL_Query GoStd.Values_Encode
           GoStd.URL_String GoStd.url_Parse_error builder (message [3; 2])).
  - vm_compute. reflexivity.
  - vm_compute. reflexivity.
  - vm_compute. reflexivity.
  - reflexivity.
Defined.

Lemma signed_URL_replaces_witness :
  signed_URL GoStd.hmac_sha256 GoStd.base64_EncodeToString GoStd.URL_Query
    GoStd.Values_Encode (1000 * 1000000) IndexedFixture.resigned_target
  = signed_URL GoStd.hmac_sha256 GoStd.base64_EncodeToString GoStd.URL_Query
      GoStd.Values_Encode (1000 * 1000000) signed_target.
Proof.
  apply signed_URL_replaces.
  - discriminate.
  - reflexivity.
  - reflexivity.
  - reflexivity.
  - intros key Htimestamp Hsign.
    assert (Hquery :
              GoStd.URL_Query (TargetURL IndexedFixture.resigned_target)
              = <["sign" := ["old"]]>
                  (<["timestamp" := ["5"]]>
                     (GoStd.URL_Query (TargetURL signed_target))))
      by (vm_compute; reflexivity).
    rewrite Hquery. by rewrite !lookup_insert_ne.
Defined.

Lemma Buildv2_again_witness :
  let m := message [20000; 10] in
  let st := fst (Buildv2_loop builder (Alerts m) (seq 1 (length (Alerts m)))
                   (Buildv2_init m)) in
  let m' := fst (Buildv2 builder m) in
  Alerts m' = slice (Alerts m) (lastIndex st) (length (Alerts m))
  ∧ (lastIndex st < length (Alerts m))%nat
  ∧ Buildv2 builder m' = (m', OK [lastData st]).
Proof.
  intros m st.
  apply (Buildv2_again marshal builder m (rendering [20000; 10]) 20072 st).
  - evaluate.
  - vm_compute. discriminate.
  - evaluate.
  - assert (Hlen : len (lastData st) = 72) by evaluate.
    intros Hnone. rewrite Hnone in Hlen. discriminate Hlen.
Defined.

Lemma Buildv2_short_or_oversized_witness :
  let m := message [7000; 7000; 7000] in
  let batches := [rendering [7000; 7000]] in
  (∃ stop, (stop < length (Alerts m))%nat ∧ greedy_cuts m 0 stop batches)
  ∨ (∃ init last,
       batches = init ++ [last] ∧ MAX_MESSAGE_LENGTH ≤ len last).
Proof.
  intros m batches.
  apply (Buildv2_short_or_oversized marshal builder m
           (rendering [7000; 7000; 7000]) 21062 batches).
  - evaluate.
  - vm_compute. discriminate.
  - discriminate.
  - evaluate.
Defined.

(** C10 as first stated fails on three alerts of 7000 bytes each: the
    whole message renders to 21062 bytes, so [Buildv2] splits, and the
    message it leaves is the one it received, alerts included; the last
    candidate was the whole sequence. *)
Lemma Buildv2_leaves_original_alerts :
  let m := message [7000; 7000; 7000] in
  ResolvedTmpl builder m = OK (rendering [7000; 7000; 7000], 21062)
  ∧ MAX_MESSAGE_LENGTH ≤ 21062
  ∧ fst (Buildv2 builder m) = m
  ∧ ¬ (Alerts (fst (Buildv2 builder m)) ≠ Alerts m).
Proof.
  intros m.
  assert (Hsame : fst (Buildv2 builder m) = m) by evaluate.
  split; [evaluate|]. split; [vm_compute; discriminate|].
  split; [exact Hsame|]. intros Hdiffers. apply Hdiffers. by rewrite Hsame.
Qed.

Lemma Buildv2_leaves_last_slice_witness :
  let m := message [20000; 10] in
  Alerts (fst (Buildv2 builder m)) = slice (Alerts m) 1 2
  ∧ Alerts (fst (Buildv2 builder m)) ≠ Alerts m.
Proof.
  intros m.
  assert (Hfull : ResolvedTmpl builder m = OK (rendering [20000; 10], 20072))
    by evaluate.
  assert (Hlen : MAX_MESSAGE_LENGTH ≤ 20072) by (vm_compute; discriminate).
  destruct (Buildv2_leaves_last_slice marshal builder m
              (rendering [20000; 10]) 20072 Hfull Hlen) as (_ & _ & Hsome).
  destruct Hsome
    as (index & before & _ & Hprefix & _ & Hslice & _ & Hwhole & Hok & _);
    [discriminate|].
  assert (Hindex : index = 2%nat) by (apply Hok; evaluate).
  subst index. apply (f_equal fst) in Hprefix. cbn [fst] in Hprefix.
  assert (Hlast : lastIndex (fst (Buildv2_loop builder (Alerts m)
                                    (seq 1 (2 - 1)) (Buildv2_init m)))
                  = 1%nat) by evaluate.
  rewrite Hprefix in Hlast. rewrite Hlast in Hslice, Hwhole.
  split; [exact Hslice|]. intros Hsame. apply Hwhole in Hsame.
  destruct Hsame as [Hzero _]. discriminate Hzero.
Defined.

End FurtherScenarios.
